(** * Geopedia import tasks (extra-tasks/geopedia/geopedia.py)

    A shallow embedding of [AddGeopediaFeatureTask] (raster import) and
    [GeopediaVectorImportTask] (vector import), and the properties of the
    colour-to-class mapping, the raster merge and the vector import that the
    specification states.

    Conventions of the embedding.
    - Array cells hold integers ([Z]).  [raster_dtype] is an integer dtype
      that represents the labels and the fill value (uint8 and the labels
      0..10 in the docstring of [_map_from_multiclass]); its conversions
      are then the identity and are not written out.
    - Samples of a decoded tile are unsigned ([N]); [request_data -
      intensities] is computed by NumPy in int64, here in [Z].
    - [np.mean] is the exact quotient in [Q]; the float64 quotient is exact
      for the four channels of an RGBA tile.
    - The services the tasks call (sentinelhub, rasterio, geopandas) are the
      fields of a record of collaborators. *)

From Stdlib Require Import ZArith QArith Qminmax Permutation.
From stdpp Require Import gmap strings list fin_maps.

(** ** Python exceptions and fallible results

    The class of a raised exception.  A ValueError carries its message: the
    one of the source where the source raises it, the start of the library's
    one otherwise. *)

Inductive exn : Type :=
| ValueError (msg : string)
| IndexError
| KeyError
| TypeError.

Inductive result (A : Type) : Type :=
| Ok (a : A)
| Raise (e : exn).
Arguments Ok {A} a.
Arguments Raise {A} e.

Global Instance result_ret : MRet result := @Ok.
Global Instance result_bind : MBind result :=
  λ A B f r, match r with Ok a => f a | Raise e => Raise e end.

(** ** NumPy arrays

    An n-dimensional array is its shape and its cells in row-major order. *)

Record ndarray (A : Type) : Type := NDArray { shape : list nat; data : list A }.
Arguments NDArray {A} shape data.
Arguments shape {A} n.
Arguments data {A} n.

(** Number of cells of an array of shape [s]. *)
Definition size_of (s : list nat) : nat := foldr Nat.mul 1 s.

Definition ndim {A} (a : ndarray A) : nat := length (shape a).

(** [np.ones(shape, dtype)] *)
Definition np_ones (s : list nat) : ndarray Z := NDArray s (replicate (size_of s) 1%Z).

(** [array * scalar] *)
Definition np_mul_scalar (a : ndarray Z) (x : Z) : ndarray Z :=
  NDArray (shape a) ((λ c, c * x)%Z <$> data a).

(** [shape] after [.squeeze()]: every axis of length one is dropped. *)
Definition squeeze_shape (s : list nat) : list nat := filter (λ n, n ≠ 1) s.

(** [shape] after [[..., np.newaxis]]. *)
Definition newaxis_shape (s : list nat) : list nat := s ++ [1].

(** [bool_array.astype(dtype)] *)
Definition astype_bool (b : bool) : Z := if b then 1%Z else 0%Z.

(** A decoded tile: an array of shape (height, width, channels) of unsigned
    samples. *)
Record RasterTile : Type := {
  height : nat;
  width : nat;
  channels : nat;
  samples : list N
}.


(** The samples of pixel [k] (row-major position in the height x width grid):
    [array[i, j, :]]. *)
Definition pixel (t : RasterTile) (k : nat) : list N :=
  take (channels t) (drop (k * channels t) (samples t)).

Definition pixels (t : RasterTile) : list (list N) :=
  pixel t <$> seq 0 (height t * width t).

(** [array[..., -1]] at one pixel. *)
Definition last_channel (p : list N) : N := default 0%N (last p).

(** Broadcasting of (height, width, c) against a sequence of length [l]. *)
Definition broadcastable (c l : nat) : bool :=
  bool_decide (l = c ∨ l = 1 ∨ c = 1).

(** [request_data - intensities] at one pixel, after broadcasting. *)
Definition np_subtract (c : nat) (p intensities : list Z) : list Z :=
  if decide (length intensities = c) then zip_with Z.sub p intensities
  else if decide (length intensities = 1)
       then (λ x, x - default 0 (head intensities))%Z <$> p
       else (λ i, default 0 (head p) - i)%Z <$> intensities.

Definition np_abs (l : list Z) : list Z := Z.abs <$> l.

Definition sum_list (l : list Z) : Z := foldr Z.add 0%Z l.

(** [np.mean(..., axis=-1)] at one pixel; [None] is nan, the mean of no
    element. *)
Definition np_mean (l : list Z) : option Q :=
  match l with
  | [] => None
  | _ => Some (inject_Z (sum_list l) / inject_Z (Z.of_nat (length l)))%Q
  end.

Definition Qltb (x y : Q) : bool :=
  match (x ?= y)%Q with Lt => true | _ => false end.

(** [mean < tolerance]; a comparison with nan is false. *)
Definition np_less (m : option Q) (tol : Q) : bool :=
  match m with
  | Some q => Qltb q tol
  | None => false
  end.

(** [raster[mask] = value] for a boolean mask of shape [mask_shape]. *)
Definition setitem_mask (raster : ndarray Z) (mask_shape : list nat)
    (mask : list bool) (value : Z) : result (ndarray Z) :=
  if decide (shape raster = mask_shape)
  then Ok (NDArray (shape raster)
             (zip_with (λ (b : bool) x, if b then value else x) mask (data raster)))
  else Raise IndexError.

(** [raster[new != 0] = new[new != 0]] on the cells [d] of an array of
    shape [s], for a 2-D array [new].  A mask of fewer dimensions than the
    array selects along the leading axes and the 1-D sequence of the [k]
    nonzero values is broadcast against the trailing ones. *)
Definition setitem_nonzero (s : list nat) (d : list Z) (new : ndarray Z)
    : result (list Z) :=
  let values := filter (λ x, x ≠ 0%Z) (data new) in
  let k := length values in
  if decide (s = shape new)
  then Ok (zip_with (λ x n, if decide (n ≠ 0%Z) then n else x) d (data new))
  else if decide (take (ndim new) s = shape new ∧ ndim new < length s)
  then
    let r := size_of (drop (ndim new) s) in
    let rn := default 0 (last s) in
    let selected x := bool_decide (data new !! (x / r) ∉ [None; Some 0%Z]) in
    if decide (k = rn)
    then Ok (imap (λ x a, if selected x then default 0%Z (values !! (x `mod` rn)) else a) d)
    else if decide (k = 1)
    then Ok (imap (λ x a, if selected x then default 0%Z (head values) else a) d)
    else Raise (ValueError "shape mismatch: value array could not be broadcast to indexing result")
  else Raise IndexError.

(** ** sentinelhub geometry *)

Inductive CRS : Type := EPSG (code : positive).

Definition POP_WEB : CRS := EPSG 3857.
Definition WGS84 : CRS := EPSG 4326.

Global Instance CRS_eq_dec : EqDecision CRS.
Proof. solve_decision. Defined.

(** A float coordinate. *)
Inductive coord : Type := NaN | Finite (q : Q).

Record BBox : Type := MkBBox {
  min_x : coord;
  min_y : coord;
  max_x : coord;
  max_y : coord;
  crs : CRS
}.

(** ** eo-learn patches *)

Inductive FeatureType : Type :=
| DATA | MASK | SCALAR | LABEL | VECTOR
| DATA_TIMELESS | MASK_TIMELESS | SCALAR_TIMELESS | LABEL_TIMELESS
| VECTOR_TIMELESS | META_INFO.

Global Instance FeatureType_eq_dec : EqDecision FeatureType.
Proof. solve_decision. Defined.

Definition FeatureType_to_nat (ft : FeatureType) : nat :=
  match ft with
  | DATA => 0 | MASK => 1 | SCALAR => 2 | LABEL => 3 | VECTOR => 4
  | DATA_TIMELESS => 5 | MASK_TIMELESS => 6 | SCALAR_TIMELESS => 7
  | LABEL_TIMELESS => 8 | VECTOR_TIMELESS => 9 | META_INFO => 10
  end.

Definition FeatureType_of_nat (n : nat) : option FeatureType :=
  match n with
  | 0 => Some DATA | 1 => Some MASK | 2 => Some SCALAR | 3 => Some LABEL
  | 4 => Some VECTOR | 5 => Some DATA_TIMELESS | 6 => Some MASK_TIMELESS
  | 7 => Some SCALAR_TIMELESS | 8 => Some LABEL_TIMELESS
  | 9 => Some VECTOR_TIMELESS | 10 => Some META_INFO | _ => None
  end.

Global Instance FeatureType_countable : Countable FeatureType.
Proof. apply (inj_countable FeatureType_to_nat FeatureType_of_nat). by intros []. Defined.



(** A GeoJSON geometry as the feature iterator yields it: its type, its
    vertices and the name under ["crs"]["properties"]["name"]. *)
Record GeoJSON : Type := {
  geom_type : string;
  coordinates : list (Q * Q);
  crs_name : option string
}.

(** A record of the feature iterator. *)
Record GeopediaFeature : Type := {
  geometry : option GeoJSON;
  properties : list (string * string)
}.

(** A shapely geometry and a row of a GeoDataFrame: the geometry column and
    the property columns. *)
Record Geometry : Type := MkGeometry {
  gtype : string;
  vertices : list (Q * Q)
}.

Record row : Type := Row {
  row_geometry : option Geometry;
  row_properties : list (string * string)
}.

Record GeoDataFrame : Type := MkGeoDataFrame {
  rows : list row;
  gdf_crs : CRS
}.

(** An ndarray object held by a patch: a view, of shape [ashape], on the
    buffer [buf] of the store.  [squeeze] and [[..., np.newaxis]] return
    views on the same buffer. *)
Record array : Type := Array { buf : nat; ashape : list nat }.

Definition squeeze (a : array) : array := Array (buf a) (squeeze_shape (ashape a)).
Definition newaxis (a : array) : array := Array (buf a) (newaxis_shape (ashape a)).

Inductive FeatureValue : Type :=
| Raster (a : array)
| Vector (g : GeoDataFrame).

Record EOPatch : Type := MkEOPatch {
  bbox : option BBox;
  features : gmap (FeatureType * string) FeatureValue
}.

(** The store of array buffers and the patch that refers to them. *)
Record world : Type := World {
  heap : list (list Z);
  patch : EOPatch
}.

Definition alloc (h : list (list Z)) (a : ndarray Z) : array * list (list Z) :=
  (Array (length h) (shape a), h ++ [data a]).

(** The array that a view denotes. *)
Definition deref (h : list (list Z)) (a : array) : ndarray Z :=
  NDArray (ashape a) (h !!! buf a).

(** [eopatch[feature_type][feature_name] = value] *)
Definition setitem (p : EOPatch) (key : FeatureType * string) (v : FeatureValue) : EOPatch :=
  MkEOPatch (bbox p) (<[key := v]> (features p)).

(** ** Collaborators *)

Record GeopediaWmsRequest : Type := {
  req_layer : string;
  req_theme : string;
  req_bbox : BBox;
  req_width : nat;
  req_height : nat;
  req_image_format : string
}.

Record Collaborators : Type := {
  (** [BBox.transform] and [BBox.transform_bounds] of sentinelhub *)
  transform : BBox → CRS → BBox;
  transform_bounds : BBox → CRS → BBox;
  (** [GeopediaWmsRequest.get_data]: the decoded images of the response *)
  get_data : GeopediaWmsRequest → list RasterTile;
  (** [rasterio.warp.reproject]: the value written to cell [k] of the
      destination, given the source and destination bounds, the two
      no-data values, the grid size and the source cells *)
  warp : BBox → BBox → Z → Z → nat → nat → list Z → nat → Z;
  (** [GeopediaFeatureIterator], exhausted into a list *)
  feature_iterator : string → option BBox → list GeopediaFeature;
  (** [CRS(name)] of sentinelhub *)
  parse_crs : string → option CRS;
  (** [GeoDataFrame.to_crs] and [gpd.clip(..., keep_geom_type=True)] on
      the rows *)
  to_crs_rows : CRS → CRS → list row → list row;
  clip_rows : BBox → list row → list row
}.

(** ** AddGeopediaFeatureTask *)

Module AddGeopediaFeatureTask.

Inductive raster_value_t : Type :=
| RVDict (d : list (string * (Z * list Z)))
| RVScalar (v : Z)
| RVOther.

(** [raster_dtype] is left out, see the conventions at the head of the file. *)
Record Task : Type := {
  feature_type : FeatureType;
  feature_name : string;
  layer : string;
  theme : string;
  raster_value : raster_value_t;
  no_data_val : Z;
  image_format : string;
  mean_abs_difference : Q
}.

Section Methods.
Context (E : Collaborators) (self : Task).

Definition _get_wms_request (bbox : option BBox) (size_x size_y : nat)
    : result GeopediaWmsRequest :=
  match bbox with
  | None => Raise (ValueError "Bbox has to be defined!")
  | Some b =>
      let bbox_3857 := transform E b POP_WEB in
      Ok {| req_layer := layer self; req_theme := theme self;
            req_bbox := bbox_3857; req_width := size_x; req_height := size_y;
            req_image_format := image_format self |}
  end.

Definition _reproject (eopatch : EOPatch) (src_raster : ndarray Z)
    : result (ndarray Z) :=
  match bbox eopatch with
  | None => Raise (ValueError "To reproject raster data, eopatch.bbox has to be defined!")
  | Some dst_bbox =>
      match shape src_raster with
      | [height; width] =>
          let src_bbox := transform E dst_bbox POP_WEB in
          Ok (NDArray [height; width]
                (warp E src_bbox dst_bbox 0 (no_data_val self) height width
                   (data src_raster) <$> seq 0 (height * width)))
      | _ => Raise (ValueError "not enough values to unpack")
      end
  end.

Definition _to_binary_mask (array : RasterTile) (binaries_raster_value : Z)
    : result (ndarray Z) :=
  if decide (channels array = 0)
  then Raise IndexError
  else Ok (NDArray [height array; width array]
             ((λ p, astype_bool (bool_decide (0 < last_channel p)%N)
                    * binaries_raster_value)%Z <$> pixels array)).

(** The raster that [_map_from_binaries] merges into: a view on the
    existing layer, or a new array. *)
Definition base_raster (w : world) (dst_shape : nat * nat)
    : result (array * list (list Z)) :=
  match features (patch w) !! (feature_type self, feature_name self) with
  | Some (Raster a) => Ok (squeeze a, heap w)
  | Some (Vector _) => Raise TypeError
  | None =>
      Ok (alloc (heap w)
            (np_mul_scalar (np_ones [dst_shape.1; dst_shape.2]) (no_data_val self)))
  end.

Definition _map_from_binaries (w : world) (dst_shape : nat * nat)
    (request_data : RasterTile) (binaries_raster_value : Z)
    : result (array * list (list Z)) :=
  '(raster, h) ← base_raster w dst_shape;
  mask ← _to_binary_mask request_data binaries_raster_value;
  new_raster ← _reproject (patch w) mask;
  updated ← setitem_nonzero (ashape raster) (h !!! buf raster) new_raster;
  Ok (raster, <[buf raster := updated]> h).

(** [np.mean(np.abs(request_data - intensities), axis=-1) <
    self.mean_abs_difference] at one pixel. *)
Definition close_to (c : nat) (intensities : list Z) (p : list N) : bool :=
  np_less (np_mean (np_abs (np_subtract c (Z.of_N <$> p) intensities)))
          (mean_abs_difference self).

(** The loop over [multiclass_raster_value.values()]. *)
Fixpoint label_classes (request_data : RasterTile)
    (values : list (Z * list Z)) (raster : ndarray Z) : result (ndarray Z) :=
  match values with
  | [] => Ok raster
  | (value, intensities) :: rest =>
      if broadcastable (channels request_data) (length intensities)
      then
        raster' ← setitem_mask raster
                    [height request_data; width request_data]
                    (close_to (channels request_data) intensities
                       <$> pixels request_data)
                    value;
        label_classes request_data rest raster'
      else Raise (ValueError "operands could not be broadcast together")
  end.

(** The labels of [_map_from_multiclass] before the reprojection. *)
Definition multiclass_labels (dst_shape : nat * nat) (request_data : RasterTile)
    (multiclass_raster_value : list (string * (Z * list Z))) : result (ndarray Z) :=
  label_classes request_data (snd <$> multiclass_raster_value)
    (np_mul_scalar (np_ones [dst_shape.1; dst_shape.2]) (no_data_val self)).

Definition _map_from_multiclass (eopatch : EOPatch) (dst_shape : nat * nat)
    (request_data : RasterTile)
    (multiclass_raster_value : list (string * (Z * list Z))) : result (ndarray Z) :=
  raster ← multiclass_labels dst_shape request_data multiclass_raster_value;
  _reproject eopatch raster.

(** The dispatch of [execute] on the type of [raster_value]. *)
Definition map_raster (w : world) (dst_shape : nat * nat)
    (request_data : RasterTile) : result (array * list (list Z)) :=
  match raster_value self with
  | RVDict d =>
      raster ← _map_from_multiclass (patch w) dst_shape request_data d;
      Ok (alloc (heap w) raster)
  | RVScalar v => _map_from_binaries w dst_shape request_data v
  | RVOther => Raise (ValueError "Unsupported raster value type")
  end.

(** The grid size read from the shape of [eopatch[FeatureType.MASK]["IS_DATA"]]. *)
Definition data_shape (eopatch : EOPatch) : result (nat * nat) :=
  match features eopatch !! (MASK, "IS_DATA") with
  | None => Raise KeyError
  | Some (Vector _) => Raise (ValueError "not enough values to unpack")
  | Some (Raster data_arr) =>
      match ashape data_arr with
      | [_; height; width; _] => Ok (height, width)
      | _ => Raise (ValueError "wrong number of values to unpack")
      end
  end.

Definition fetch (eopatch : EOPatch) (height width : nat) : result RasterTile :=
  request ← _get_wms_request (bbox eopatch) width height;
  match get_data E request with
  | [request_data] => Ok request_data
  | _ => Raise (ValueError "wrong number of values to unpack")
  end.

Definition execute (w : world) : result world :=
  '(height, width) ← data_shape (patch w);
  request_data ← fetch (patch w) height width;
  '(raster, h) ← map_raster w (height, width) request_data;
  let raster :=
    if decide (feature_type self = MASK_TIMELESS ∧ length (ashape raster) = 2)
    then newaxis raster else raster in
  Ok (World h (setitem (patch w) (feature_type self, feature_name self) (Raster raster))).

End Methods.

End AddGeopediaFeatureTask.

(** ** GeoDataFrames *)

(** [np.nanmin] and [np.nanmax] of two floats. *)
Definition nanmin (a b : coord) : coord :=
  match a, b with
  | NaN, _ => b
  | _, NaN => a
  | Finite x, Finite y => Finite (Qmin x y)
  end.

Definition nanmax (a b : coord) : coord :=
  match a, b with
  | NaN, _ => b
  | _, NaN => a
  | Finite x, Finite y => Finite (Qmax x y)
  end.

(** [geometry.bounds]: (minx, miny, maxx, maxy), all nan for an empty or
    missing geometry. *)
Definition bounds (g : option Geometry) : coord * coord * coord * coord :=
  let vs := from_option vertices [] g in
  (foldr nanmin NaN (Finite ∘ fst <$> vs), foldr nanmin NaN (Finite ∘ snd <$> vs),
   foldr nanmax NaN (Finite ∘ fst <$> vs), foldr nanmax NaN (Finite ∘ snd <$> vs)).

(** [GeoDataFrame.total_bounds] *)
Definition total_bounds (g : GeoDataFrame) : coord * coord * coord * coord :=
  let b := bounds ∘ row_geometry <$> rows g in
  (foldr nanmin NaN ((λ x, x.1.1.1) <$> b), foldr nanmin NaN ((λ x, x.1.1.2) <$> b),
   foldr nanmax NaN ((λ x, x.1.2) <$> b), foldr nanmax NaN ((λ x, x.2) <$> b)).

(** [gpd.GeoDataFrame.from_features(features, crs)]: one row per record. *)
Definition row_of_feature (f : GeopediaFeature) : row :=
  Row ((λ g, MkGeometry (geom_type g) (coordinates g)) <$> geometry f) (properties f).

Definition from_features (fs : list GeopediaFeature) (c : CRS) : GeoDataFrame :=
  MkGeoDataFrame (row_of_feature <$> fs) c.

Definition dquote : string := String (Ascii.ascii_of_nat 34) EmptyString.

(** ** GeopediaVectorImportTask *)

Module GeopediaVectorImportTask.

(** [config] and [geopedia_kwargs] are only handed to the feature iterator,
    which is a collaborator here. *)
Record Task : Type := {
  feature : FeatureType * string;
  geopedia_table : string;
  reproject : bool;
  clip : bool
}.

(** What a call leaves behind: the returned patch, or the exception and the
    state of the caller's patch (if there was one) when it was raised. *)
Inductive outcome : Type :=
| Return (eopatch : EOPatch)
| Fail (e : exn) (caller_patch : option EOPatch).

Section Methods.
Context (E : Collaborators) (self : Task).

(** Returns the value assigned to [self.dataset_crs] with the data frame. *)
Definition _load_vector_data (bbox : option BBox) : result (CRS * GeoDataFrame) :=
  let prepared_bbox := (λ b, transform_bounds E b POP_WEB) <$> bbox in
  let geopedia_features := feature_iterator E (geopedia_table self) prepared_bbox in
  match geopedia_features with
  | [] => Raise IndexError
  | first :: _ =>
      match geometry first with
      | None =>
          Raise (ValueError ("Geopedia table " +:+ dquote +:+ geopedia_table self
                             +:+ dquote +:+ " does not contain geometries!"))
      | Some geometry =>
          match crs_name geometry with
          | None => Raise KeyError
          | Some name =>
              match parse_crs E name with
              | None => Raise (ValueError "not a valid CRS")
              | Some dataset_crs =>
                  Ok (dataset_crs, from_features geopedia_features dataset_crs)
              end
          end
      end
  end.

Definition _reproject_and_clip (vectors : GeoDataFrame) (bbox : option BBox)
    : result GeoDataFrame :=
  vectors ←
    (if reproject self then
       match bbox with
       | None => Raise (ValueError "To reproject vector data, eopatch.bbox has to be defined!")
       | Some b =>
           Ok (MkGeoDataFrame (to_crs_rows E (gdf_crs vectors) (crs b) (rows vectors)) (crs b))
       end
     else Ok vectors);
  if clip self then
    match bbox with
    | None => Raise (ValueError "To clip vector data, eopatch.bbox has to be defined!")
    | Some b =>
        let bbox_crs := crs b in
        if decide (gdf_crs vectors ≠ bbox_crs)
        then Raise (ValueError "To clip, vectors should be in same CRS as EOPatch bbox!")
        else Ok (MkGeoDataFrame (clip_rows E b (rows vectors)) (gdf_crs vectors))
    end
  else Ok vectors.

(** The bounding box that [execute] resolves: the argument, else the one of
    the given patch. *)
Definition resolve_bbox (eopatch : option EOPatch) (bbox0 : option BBox) : option BBox :=
  match bbox0, eopatch with
  | None, Some p => bbox p
  | _, _ => bbox0
  end.

Definition execute (eopatch : option EOPatch) (bbox0 : option BBox) : outcome :=
  let bbox1 := resolve_bbox eopatch bbox0 in
  match _load_vector_data bbox1 with
  | Raise e => Fail e eopatch
  | Ok (_, vectors) =>
      let '(minx, miny, maxx, maxy) := total_bounds vectors in
      let final_bbox :=
        match bbox1 with
        | Some b => b
        | None => MkBBox minx miny maxx maxy (gdf_crs vectors)
        end in
      let eopatch1 := from_option id (MkEOPatch (Some final_bbox) ∅) eopatch in
      let eopatch2 :=
        match bbox eopatch1 with
        | None => MkEOPatch (Some final_bbox) (features eopatch1)
        | Some _ => eopatch1
        end in
      match _reproject_and_clip vectors bbox1 with
      | Raise e => Fail e ((λ _, eopatch2) <$> eopatch)
      | Ok clipped => Return (setitem eopatch2 (feature self) (Vector clipped))
      end
  end.

End Methods.

End GeopediaVectorImportTask.

(** ** Example data

    A 2 x 2 RGBA tile, three classes of the docstring of
    [_map_from_multiclass], and collaborators for grids that coincide: the
    transforms keep the bounding box and the warp copies the source cells,
    writing the destination no-data value where the source holds its own. *)

Definition example_tile : RasterTile :=
  {| height := 2; width := 2; channels := 4;
     samples := [73; 119; 20; 255;  0; 0; 0; 0;
                 154; 86; 1; 255;  200; 10; 10; 255]%N |}.

Definition opaque_row : RasterTile :=
  {| height := 1; width := 2; channels := 4;
     samples := [73; 119; 20; 255;  154; 86; 1; 255]%N |}.

Definition example_classes : list (string * (Z * list Z)) :=
  [("no_data", (0, [0; 0; 0; 0])); ("forest", (2, [73; 119; 20; 255]));
   ("water", (5, [154; 86; 1; 255]))]%Z.

Definition example_bbox : BBox :=
  MkBBox (Finite 0) (Finite 0) (Finite 10) (Finite 10) WGS84.

Definition example_features : list GeopediaFeature :=
  [ {| geometry := Some {| geom_type := "Point"; coordinates := [(0, 0)]%Q;
                           crs_name := Some "urn:ogc:def:crs:EPSG::4326" |};
       properties := [("id", "1")] |};
    {| geometry := Some {| geom_type := "LineString";
                           coordinates := [(2, 3); (10, 5)]%Q;
                           crs_name := Some "urn:ogc:def:crs:EPSG::4326" |};
       properties := [("id", "2")] |};
    {| geometry := Some {| geom_type := "Point"; coordinates := [(4, 10)]%Q;
                           crs_name := Some "urn:ogc:def:crs:EPSG::4326" |};
       properties := [("id", "3")] |} ].

Definition aligned_warp (src_nodata dst_nodata : Z) (d : list Z) (k : nat) : Z :=
  match d !! k with
  | Some x => if decide (x = src_nodata) then dst_nodata else x
  | None => dst_nodata
  end.

Definition example_services (tile : RasterTile) (fs : list GeopediaFeature)
    : Collaborators :=
  {| transform := λ b _, b;
     transform_bounds := λ b _, b;
     get_data := λ _, [tile];
     warp := λ _ _ src_nodata dst_nodata _ _ d k, aligned_warp src_nodata dst_nodata d k;
     feature_iterator := λ _ _, fs;
     parse_crs := λ _, Some WGS84;
     to_crs_rows := λ _ _ r, r;
     clip_rows := λ _ r, r |}.

Definition multiclass_task : AddGeopediaFeatureTask.Task :=
  {| AddGeopediaFeatureTask.feature_type := MASK_TIMELESS;
     AddGeopediaFeatureTask.feature_name := "LULC";
     AddGeopediaFeatureTask.layer := "ttl2275";
     AddGeopediaFeatureTask.theme := "lulc";
     AddGeopediaFeatureTask.raster_value := AddGeopediaFeatureTask.RVDict example_classes;
     AddGeopediaFeatureTask.no_data_val := 0;
     AddGeopediaFeatureTask.image_format := "png";
     AddGeopediaFeatureTask.mean_abs_difference := 2 |}.

Definition binary_task (ft : FeatureType) : AddGeopediaFeatureTask.Task :=
  {| AddGeopediaFeatureTask.feature_type := ft;
     AddGeopediaFeatureTask.feature_name := "LAKES";
     AddGeopediaFeatureTask.layer := "ttl2275";
     AddGeopediaFeatureTask.theme := "lakes";
     AddGeopediaFeatureTask.raster_value := AddGeopediaFeatureTask.RVScalar 1;
     AddGeopediaFeatureTask.no_data_val := 0;
     AddGeopediaFeatureTask.image_format := "png";
     AddGeopediaFeatureTask.mean_abs_difference := 2 |}.

Definition vector_task (reproject clip : bool) : GeopediaVectorImportTask.Task :=
  {| GeopediaVectorImportTask.feature := (VECTOR_TIMELESS, "LPIS");
     GeopediaVectorImportTask.geopedia_table := "ttl1904";
     GeopediaVectorImportTask.reproject := reproject;
     GeopediaVectorImportTask.clip := clip |}.

(** A patch with its validity mask of shape (1, height, width, 1) in buffer 0. *)
Definition example_world (h w : nat) : world :=
  World [replicate (h * w) 1%Z]
    (MkEOPatch (Some example_bbox) {[ (MASK, "IS_DATA") := Raster (Array 0 [1; h; w; 1]) ]}).

(** The world after the binary import of [example_tile] into
    [example_world 2 2]. *)
Definition lakes_world : world :=
  World [[1; 1; 1; 1]; [1; 0; 1; 1]]%Z
    (setitem (patch (example_world 2 2)) (MASK_TIMELESS, "LAKES")
       (Raster (Array 1 [2; 2; 1]))).

(** The patch of the vector import of [example_features], called with no
    patch, no bounding box and neither reprojection nor clipping. *)
Definition example_vector_patch : EOPatch :=
  MkEOPatch (Some example_bbox)
    {[ (VECTOR_TIMELESS, "LPIS") := Vector (from_features example_features WGS84) ]}.

Definition utm_bbox : BBox :=
  MkBBox (Finite 500000) (Finite 5000000) (Finite 501000) (Finite 5001000) (EPSG 32633).

(** A patch whose layers LAKES and COPY are one array object. *)
Definition aliased_world : world :=
  World [[1; 1; 1; 1]; [0; 0; 0; 0]]%Z
    (MkEOPatch (Some example_bbox)
       {[ (MASK, "IS_DATA") := Raster (Array 0 [1; 2; 2; 1]);
          (MASK_TIMELESS, "LAKES") := Raster (Array 1 [2; 2; 1]);
          (MASK_TIMELESS, "COPY") := Raster (Array 1 [2; 2; 1]) ]}).

(** A fully opaque 10 x 10 RGBA tile. *)
Definition opaque_tile : RasterTile :=
  {| height := 10; width := 10; channels := 4;
     samples := concat (replicate 100 [20; 47; 147; 255]%N) |}.

(** Two themes of one service: a lake at the first pixel of a 2 x 2 grid
    and a forest at the last one, and the task that imports the forest,
    with label 2, into the layer of [binary_task]. *)
Definition lake_tile : RasterTile :=
  {| height := 2; width := 2; channels := 4;
     samples := [154; 86; 1; 255;  0; 0; 0; 0;  0; 0; 0; 0;  0; 0; 0; 0]%N |}.

Definition forest_tile : RasterTile :=
  {| height := 2; width := 2; channels := 4;
     samples := [0; 0; 0; 0;  0; 0; 0; 0;  0; 0; 0; 0;  73; 119; 20; 255]%N |}.

Definition two_theme_services : Collaborators :=
  {| transform := λ b _, b;
     transform_bounds := λ b _, b;
     get_data := λ r, if String.eqb (req_theme r) "lakes"
                      then [lake_tile] else [forest_tile];
     warp := λ _ _ src_nodata dst_nodata _ _ d k, aligned_warp src_nodata dst_nodata d k;
     feature_iterator := λ _ _, [];
     parse_crs := λ _, Some WGS84;
     to_crs_rows := λ _ _ r, r;
     clip_rows := λ _ r, r |}.

Definition forest_task : AddGeopediaFeatureTask.Task :=
  {| AddGeopediaFeatureTask.feature_type := MASK_TIMELESS;
     AddGeopediaFeatureTask.feature_name := "LAKES";
     AddGeopediaFeatureTask.layer := "ttl2275";
     AddGeopediaFeatureTask.theme := "forest";
     AddGeopediaFeatureTask.raster_value := AddGeopediaFeatureTask.RVScalar 2;
     AddGeopediaFeatureTask.no_data_val := 0;
     AddGeopediaFeatureTask.image_format := "png";
     AddGeopediaFeatureTask.mean_abs_difference := 2 |}.

(** The worlds after the import of the lake and then of the forest into
    [example_world 2 2]. *)
Definition lake_world : world :=
  World [[1; 1; 1; 1]; [1; 0; 0; 0]]%Z
    (setitem (patch (example_world 2 2)) (MASK_TIMELESS, "LAKES")
       (Raster (Array 1 [2; 2; 1]))).

Definition lake_forest_world : world :=
  World [[1; 1; 1; 1]; [1; 0; 0; 2]]%Z
    (setitem (patch (example_world 2 2)) (MASK_TIMELESS, "LAKES")
       (Raster (Array 1 [2; 2; 1]))).

(** A dataset whose first feature has no geometry. *)
Definition headless_features : list GeopediaFeature :=
  {| geometry := None; properties := [("id", "0")] |} :: example_features.

(** ** Notions of the specification *)






(** The store is consistent with the patch: every array of the patch lies
    in the store and its buffer has the cells of its shape. *)
Definition wf_world (w : world) : Prop :=
  ∀ key a, features (patch w) !! key = Some (Raster a) →
    ∃ cells, heap w !! buf a = Some cells ∧ length cells = size_of (ashape a).

(** * Properties *)

(** ** Facts on the array operations *)

Lemma bind_Ok {A B} (r : result A) (f : A → result B) (b : B) :
  r ≫= f = Ok b → ∃ a, r = Ok a ∧ f a = Ok b.
Proof. destruct r as [a|e]; [|done]. intros H. by exists a. Qed.

(** Splits a hypothesis [r ≫= f = Ok b] into [r = Ok a] and [f a = Ok b]. *)
Tactic Notation "inv_bind" hyp(H) "as" ident(a) ident(Ha) :=
  apply bind_Ok in H as (a & Ha & H); cbn beta iota in H.


Lemma length_pixels (t : RasterTile) : length (pixels t) = height t * width t.
Proof. unfold pixels. by rewrite length_fmap, length_seq. Qed.


Lemma size_of_grid (h w : nat) : size_of [h; w] = h * w.
Proof. unfold size_of. simpl. lia. Qed.







Lemma squeeze_shape_idemp (s : list nat) :
  squeeze_shape (squeeze_shape s) = squeeze_shape s.
Proof.
  unfold squeeze_shape. induction s as [|n s IH]; [done|].
  rewrite filter_cons. destruct (decide (n ≠ 1)); [|done].
  by rewrite filter_cons, decide_True, IH.
Qed.

Lemma squeeze_shape_newaxis (s : list nat) :
  squeeze_shape (newaxis_shape s) = squeeze_shape s.
Proof.
  unfold squeeze_shape, newaxis_shape. rewrite filter_app.
  rewrite filter_cons, decide_False, filter_nil by (intros H; by apply H).
  apply app_nil_r.
Qed.

Lemma squeeze_shape_grid (h w : nat) :
  h ≠ 1 → w ≠ 1 → squeeze_shape [h; w] = [h; w].
Proof.
  intros Hh Hw. unfold squeeze_shape.
  by rewrite !filter_cons, !decide_True, filter_nil.
Qed.

Lemma setitem_nonzero_idemp (s : list nat) (d u : list Z) (new : ndarray Z) :
  setitem_nonzero s d new = Ok u → setitem_nonzero s u new = Ok u.
Proof.
  unfold setitem_nonzero.
  destruct (decide (s = shape new)) as [_|_].
  { intros [= <-]. f_equal. apply list_eq. intros i.
    rewrite !lookup_zip_with.
    destruct (d !! i) as [x|]; [|done]. destruct (data new !! i) as [n|]; [|done].
    simpl. by destruct (decide (n ≠ 0%Z)). }
  destruct (decide (take (ndim new) s = shape new ∧ ndim new < length s)) as [_|_].
  - destruct (decide (length (filter (λ x, x ≠ 0%Z) (data new)) = default 0 (last s)))
      as [_|_]; [|destruct (decide (length (filter (λ x, x ≠ 0%Z) (data new)) = 1))
                     as [_|_]; [|done]].
    + intros [= <-]. f_equal. apply list_eq. intros i.
      rewrite !list_lookup_imap. destruct (d !! i) as [x|]; [|done]. simpl.
      by destruct (bool_decide _).
    + intros [= <-]. f_equal. apply list_eq. intros i.
      rewrite !list_lookup_imap. destruct (d !! i) as [x|]; [|done]. simpl.
      by destruct (bool_decide _).
  - done.
Qed.

Module RasterProperties.
Import AddGeopediaFeatureTask.



(** *** The colour-to-class mapping *)

Section Multiclass.
Context (self : Task).








End Multiclass.

(** *** The merge of [_map_from_binaries] *)

Section Merge.
Context (E : Collaborators) (self : Task).



Lemma base_raster_existing (w : world) (dst : nat * nat) (a : array) :
  features (patch w) !! (feature_type self, feature_name self) = Some (Raster a) →
  base_raster self w dst = Ok (squeeze a, heap w).
Proof. intros H. unfold base_raster. by rewrite H. Qed.

Lemma base_raster_fresh (w : world) (dst : nat * nat) :
  features (patch w) !! (feature_type self, feature_name self) = None →
  base_raster self w dst
  = Ok (Array (length (heap w)) [dst.1; dst.2],
        heap w ++ [replicate (dst.1 * dst.2) (1 * no_data_val self)%Z]).
Proof.
  intros H. unfold base_raster. rewrite H. unfold alloc, np_mul_scalar, np_ones.
  cbn [shape data]. by rewrite size_of_grid, fmap_replicate.
Qed.




End Merge.

(** *** The statements at the example data *)








(** *** [execute] *)

Section Execute.
Context (E : Collaborators) (self : Task).

Lemma execute_inv (w w' : world) :
  execute E self w = Ok w' →
  ∃ height width tile raster h,
    data_shape (patch w) = Ok (height, width)
    ∧ fetch E self (patch w) height width = Ok tile
    ∧ map_raster E self w (height, width) tile = Ok (raster, h)
    ∧ w' = World h
             (setitem (patch w) (feature_type self, feature_name self)
                (Raster (if decide (feature_type self = MASK_TIMELESS
                                    ∧ length (ashape raster) = 2)
                         then newaxis raster else raster))).
Proof.
  unfold execute. intros H.
  inv_bind H as hw Hshape. destruct hw as [height width].
  inv_bind H as tile Htile.
  inv_bind H as rh Hmap. destruct rh as [raster h].
  injection H as <-. by exists height, width, tile, raster, h.
Qed.


End Execute.



(** *** Repeated binary imports *)

Section Idempotence.
Context (E : Collaborators) (self : Task).

Lemma map_from_binaries_steps (w : world) (dst : nat * nat) (t : RasterTile) (v : Z)
    (raster : array) (h' : list (list Z)) :
  _map_from_binaries E self w dst t v = Ok (raster, h') →
  ∃ h0 mask new updated,
    base_raster self w dst = Ok (raster, h0)
    ∧ _to_binary_mask t v = Ok mask
    ∧ _reproject E self (patch w) mask = Ok new
    ∧ setitem_nonzero (ashape raster) (h0 !!! buf raster) new = Ok updated
    ∧ h' = <[buf raster := updated]> h0.
Proof.
  unfold _map_from_binaries. intros H.
  inv_bind H as bh Hb. destruct bh as [base h0].
  inv_bind H as mask Hm.
  inv_bind H as new Hn.
  inv_bind H as updated Hu.
  injection H as <- <-. by exists h0, mask, new, updated.
Qed.

Lemma reproject_bbox (p p' : EOPatch) (src : ndarray Z) :
  bbox p' = bbox p → _reproject E self p' src = _reproject E self p src.
Proof. intros H. unfold _reproject. by rewrite H. Qed.

Lemma fetch_bbox (p p' : EOPatch) (height width : nat) :
  bbox p' = bbox p → fetch E self p' height width = fetch E self p height width.
Proof. intros H. unfold fetch. by rewrite H. Qed.

(** The base raster of the first run has a shape that [squeeze] keeps. *)
Lemma base_shape_squeezed (w : world) (height width : nat) (raster : array)
    (h0 : list (list Z)) :
  base_raster self w (height, width) = Ok (raster, h0) →
  (features (patch w) !! (feature_type self, feature_name self) = None →
   height ≠ 1 ∧ width ≠ 1) →
  squeeze_shape (ashape raster) = ashape raster.
Proof.
  unfold base_raster. intros H Hgrid.
  destruct (features (patch w) !! _) as [[a|g]|]; [|done|].
  - injection H as <- <-. cbn [squeeze ashape]. apply squeeze_shape_idemp.
  - injection H as <- <-. cbn [alloc fst ashape np_mul_scalar np_ones shape].
    destruct Hgrid as [Hh Hw]; [done|]. by apply squeeze_shape_grid.
Qed.

(** X1.  Binary merge idempotence, where it holds: after a successful binary
    import into a layer other than the validity mask, a second import with
    the same remote tile succeeds and leaves the store and the patch as the
    first one left them, provided the layer existed before the first import
    or the grid has neither height 1 nor width 1. *)
Theorem binary_import_idempotent (w w1 : world) (v : Z) (height width : nat) :
  raster_value self = RVScalar v →
  (feature_type self, feature_name self) ≠ (MASK, "IS_DATA") →
  data_shape (patch w) = Ok (height, width) →
  (features (patch w) !! (feature_type self, feature_name self) = None →
   height ≠ 1 ∧ width ≠ 1) →
  execute E self w = Ok w1 →
  execute E self w1 = Ok w1.
Proof.
  intros Hv Hkey Hshape Hgrid H1.
  apply execute_inv in H1
    as (height' & width' & tile & raster & h1 & Hs & Ht & Hm & ->).
  rewrite Hshape in Hs. injection Hs as <- <-.
  unfold map_raster in Hm. rewrite Hv in Hm.
  apply map_from_binaries_steps in Hm
    as (h0 & mask & new & updated & Hbase & Hmask & Hnew & Hupd & ->).
  pose proof (base_shape_squeezed _ _ _ _ _ Hbase Hgrid) as Hsq.
  set (written := if decide (feature_type self = MASK_TIMELESS
                             ∧ length (ashape raster) = 2)
                  then newaxis raster else raster).
  assert (squeeze written = raster) as Hview.
  { unfold written, squeeze. destruct raster as [b s]. cbn [buf ashape] in *.
    destruct (decide _); cbn [newaxis buf ashape]; f_equal; [|done].
    by rewrite squeeze_shape_newaxis. }
  set (h1 := <[buf raster := updated]> h0).
  set (w1 := World h1 (setitem (patch w) (feature_type self, feature_name self)
                         (Raster written))).
  assert (data_shape (patch w1) = Ok (height, width)) as Hs1.
  { unfold data_shape, w1. cbn [patch setitem features].
    rewrite lookup_insert_ne by done. exact Hshape. }
  assert (h1 !!! buf raster = updated ∨ (h1 = h0 ∧ length h0 ≤ buf raster)) as Hcell.
  { destruct (decide (buf raster < length h0)) as [Hlt|Hge].
    - left. unfold h1. by rewrite list_lookup_total_insert_eq.
    - right. split; [|lia]. unfold h1. apply list_insert_ge. lia. }
  assert (setitem_nonzero (ashape raster) (h1 !!! buf raster) new = Ok updated
          ∧ <[buf raster := updated]> h1 = h1) as [Hupd1 Hh1].
  { destruct Hcell as [Hc|[Hc Hge]].
    - rewrite Hc. split; [by eapply setitem_nonzero_idemp|].
      unfold h1. by rewrite list_insert_insert_eq.
    - rewrite Hc. split; [exact Hupd|]. by apply list_insert_ge. }
  unfold execute. rewrite Hs1. cbn [mbind result_bind].
  rewrite (fetch_bbox (patch w) (patch w1)) by done. rewrite Ht.
  cbn [mbind result_bind].
  assert (features (patch w1) !! (feature_type self, feature_name self)
          = Some (Raster written)) as Hf1.
  { unfold w1. cbn [patch setitem features]. apply lookup_insert_eq. }
  unfold map_raster. rewrite Hv. unfold _map_from_binaries, base_raster.
  rewrite Hf1. cbn [mbind result_bind]. rewrite Hview, Hmask.
  cbn [mbind result_bind].
  rewrite (reproject_bbox (patch w) (patch w1)) by done. rewrite Hnew.
  cbn [mbind result_bind]. change (heap w1) with h1. rewrite Hupd1.
  cbn [mbind result_bind]. rewrite Hh1. fold written. unfold w1. f_equal. f_equal.
  unfold setitem. cbn [patch bbox features]. by rewrite insert_insert_eq.
Qed.

End Idempotence.

Lemma binary_import_idempotent_witness :
  execute (example_services example_tile []) (binary_task MASK_TIMELESS)
    (example_world 2 2) = Ok lakes_world
  ∧ execute (example_services example_tile []) (binary_task MASK_TIMELESS)
      lakes_world = Ok lakes_world.
Proof.
  assert (execute (example_services example_tile []) (binary_task MASK_TIMELESS)
            (example_world 2 2) = Ok lakes_world) as H by reflexivity.
  split; [exact H|].
  refine (binary_import_idempotent (example_services example_tile [])
            (binary_task MASK_TIMELESS) (example_world 2 2) lakes_world 1 2 2
            eq_refl _ eq_refl _ H).
  - discriminate.
  - intros _. split; discriminate.
Defined.

(** The end-to-end example of the specification: a 10 x 10 validity mask,
    the binary label 1, the no-data value 0 and a fully opaque tile, on
    grids that coincide, give a 10 x 10 x 1 layer of ones. *)
Lemma opaque_tile_all_ones :
  ∃ w',
    execute (example_services opaque_tile []) (binary_task MASK_TIMELESS)
      (example_world 10 10) = Ok w'
    ∧ features (patch w') !! (MASK_TIMELESS, "LAKES")
      = Some (Raster (Array 1 [10; 10; 1]))
    ∧ heap w' !! 1 = Some (replicate 100 1%Z).
Proof. eexists. split; [reflexivity|]. split; vm_compute; reflexivity. Qed.

(** C4 at a grid of one row.  The first import writes a layer of shape
    (1, 2, 1); the second reads it back squeezed to one dimension, and the
    assignment through the 2-D mask raises. *)
Lemma second_run_on_row_grid :
  ∃ w1,
    execute (example_services opaque_row []) (binary_task MASK_TIMELESS)
      (example_world 1 2) = Ok w1
    ∧ features (patch w1) !! (MASK_TIMELESS, "LAKES")
      = Some (Raster (Array 1 [1; 2; 1]))
    ∧ heap w1 !! 1 = Some [1; 1]%Z
    ∧ execute (example_services opaque_row []) (binary_task MASK_TIMELESS) w1
      = Raise IndexError.
Proof. eexists. repeat split; reflexivity. Qed.

End RasterProperties.

Module VectorProperties.
Import GeopediaVectorImportTask.

Section Execute.
Context (E : Collaborators) (self : Task).

Lemma load_inv (bbox1 : option BBox) (c : CRS) (vectors : GeoDataFrame) :
  _load_vector_data E self bbox1 = Ok (c, vectors) →
  ∃ first rest g name,
    feature_iterator E (geopedia_table self)
      ((λ b, transform_bounds E b POP_WEB) <$> bbox1) = first :: rest
    ∧ geometry first = Some g
    ∧ crs_name g = Some name
    ∧ parse_crs E name = Some c
    ∧ vectors = from_features (first :: rest) c.
Proof.
  unfold _load_vector_data. intros H.
  destruct (feature_iterator E _ _) as [|first rest]; [done|].
  destruct (geometry first) as [g|] eqn:Hg; [|done].
  destruct (crs_name g) as [name|] eqn:Hn; [|done].
  destruct (parse_crs E name) as [c'|] eqn:Hc; [|done].
  injection H as <- <-. by exists first, rest, g, name.
Qed.

Lemma reproject_and_clip_unbounded (vectors clipped : GeoDataFrame) :
  _reproject_and_clip E self vectors None = Ok clipped →
  reproject self = false ∧ clip self = false ∧ clipped = vectors.
Proof.
  unfold _reproject_and_clip.
  destruct (reproject self); [done|]. cbn [mbind result_bind].
  destruct (clip self); [done|]. by intros [= <-].
Qed.

(** C10.  When the feature iterator yields no feature, [execute] raises
    the IndexError of [geopedia_features[0]]: no CRS is inferred, the
    caller's patch is as it was given, and no patch is returned. *)
Theorem empty_dataset_raises (eopatch : option EOPatch) (bbox0 : option BBox) :
  feature_iterator E (geopedia_table self)
    ((λ b, transform_bounds E b POP_WEB) <$> resolve_bbox eopatch bbox0) = [] →
  _load_vector_data E self (resolve_bbox eopatch bbox0)
  = Raise IndexError
  ∧ execute E self eopatch bbox0
    = Fail IndexError eopatch.
Proof.
  intros H.
  assert (_load_vector_data E self (resolve_bbox eopatch bbox0)
          = Raise IndexError) as Hload.
  { unfold _load_vector_data. by rewrite H. }
  split; [exact Hload|]. unfold execute. by rewrite Hload.
Qed.

(** C7.  Called with no patch and no bounding box, a patch that [execute]
    returns has as bounding box the total bounds of the fetched geometries
    in the CRS named by the first feature, and its configured vector layer
    is the data frame of exactly the fetched records, one row each. *)
Theorem full_extent_patch (p : EOPatch) :
  execute E self None None = Return p →
  ∃ first g name c vectors,
    head (feature_iterator E (geopedia_table self) None) = Some first
    ∧ geometry first = Some g ∧ crs_name g = Some name ∧ parse_crs E name = Some c
    ∧ rows vectors = row_of_feature <$> feature_iterator E (geopedia_table self) None
    ∧ gdf_crs vectors = c
    ∧ bbox p = Some (MkBBox (total_bounds vectors).1.1.1 (total_bounds vectors).1.1.2
                       (total_bounds vectors).1.2 (total_bounds vectors).2 c)
    ∧ features p = {[ feature self := Vector vectors ]}.
Proof.
  unfold execute. cbn [resolve_bbox]. intros H.
  destruct (_load_vector_data E self None) as [[c vectors]|e] eqn:Hload; [|done].
  apply load_inv in Hload as (first & rest & g & name & Hit & Hg & Hn & Hc & ->).
  cbn [fmap option_fmap option_map] in Hit.
  destruct (total_bounds (from_features (first :: rest) c))
    as [[[minx miny] maxx] maxy] eqn:Hb.
  cbn [from_option bbox] in H.
  destruct (_reproject_and_clip E self (from_features (first :: rest) c) None)
    as [clipped|e] eqn:Hrc; [|done].
  apply reproject_and_clip_unbounded in Hrc as (_ & _ & ->).
  injection H as <-.
  exists first, g, name, c, (from_features (first :: rest) c).
  rewrite Hit, Hb. cbn [head]. repeat split; done.
Qed.

(** C6, as amended.  Once the dataset has been loaded (it has a first
    feature with a geometry and a CRS name that parses): with [reproject]
    enabled and no resolved bounding box, [execute] fails with the
    ValueError of the missing bounding box; with [reproject] disabled,
    [clip] enabled and geometries in a CRS other than that of the resolved
    bounding box, it fails with the ValueError of the CRS mismatch.  No
    patch is returned in either case. *)
Theorem precondition_errors (eopatch : option EOPatch) (bbox0 : option BBox)
    (c : CRS) (vectors : GeoDataFrame) :
  _load_vector_data E self (resolve_bbox eopatch bbox0) = Ok (c, vectors) →
  (reproject self = true → resolve_bbox eopatch bbox0 = None →
   ∃ st, execute E self eopatch bbox0
         = Fail (ValueError "To reproject vector data, eopatch.bbox has to be defined!") st)
  ∧ (reproject self = false → clip self = true →
     ∀ b, resolve_bbox eopatch bbox0 = Some b → gdf_crs vectors ≠ crs b →
     ∃ st, execute E self eopatch bbox0
           = Fail (ValueError "To clip, vectors should be in same CRS as EOPatch bbox!") st).
Proof.
  intros Hload. split.
  - intros Hr Hb. unfold execute. rewrite Hload, Hb.
    destruct (total_bounds vectors) as [[[minx miny] maxx] maxy].
    unfold _reproject_and_clip. rewrite Hr. cbn [mbind result_bind]. eauto.
  - intros Hr Hc b Hb Hne. unfold execute. rewrite Hload, Hb.
    destruct (total_bounds vectors) as [[[minx miny] maxx] maxy].
    unfold _reproject_and_clip. rewrite Hr, Hc. cbn [mbind result_bind].
    rewrite decide_True by done. eauto.
Qed.

End Execute.

Lemma empty_dataset_raises_witness :
  feature_iterator (example_services opaque_row []) "ttl1904" None = []
  ∧ _load_vector_data (example_services opaque_row []) (vector_task true false) None
    = Raise IndexError
  ∧ execute (example_services opaque_row []) (vector_task true false)
      (Some (MkEOPatch None ∅)) None
    = Fail IndexError (Some (MkEOPatch None ∅)).
Proof.
  split; [reflexivity|].
  exact (empty_dataset_raises (example_services opaque_row []) (vector_task true false)
           (Some (MkEOPatch None ∅)) None eq_refl).
Defined.

Lemma full_extent_patch_witness :
  execute (example_services opaque_row example_features) (vector_task false false)
    None None = Return example_vector_patch
  ∧ ∃ first g name c vectors,
      head example_features = Some first
      ∧ geometry first = Some g ∧ crs_name g = Some name ∧ Some WGS84 = Some c
      ∧ rows vectors = row_of_feature <$> example_features
      ∧ gdf_crs vectors = c
      ∧ bbox example_vector_patch
        = Some (MkBBox (total_bounds vectors).1.1.1 (total_bounds vectors).1.1.2
                  (total_bounds vectors).1.2 (total_bounds vectors).2 c)
      ∧ features example_vector_patch = {[ (VECTOR_TIMELESS, "LPIS") := Vector vectors ]}.
Proof.
  assert (execute (example_services opaque_row example_features)
            (vector_task false false) None None = Return example_vector_patch) as H
    by reflexivity.
  split; [exact H|].
  exact (full_extent_patch (example_services opaque_row example_features)
           (vector_task false false) example_vector_patch H).
Defined.

Lemma precondition_errors_witness :
  _load_vector_data (example_services opaque_row example_features)
    (vector_task true false) None
  = Ok (WGS84, from_features example_features WGS84)
  ∧ (∃ st, execute (example_services opaque_row example_features)
             (vector_task true false) None None
           = Fail (ValueError "To reproject vector data, eopatch.bbox has to be defined!") st)
  ∧ (∃ st, execute (example_services opaque_row example_features)
             (vector_task false true) None (Some utm_bbox)
           = Fail (ValueError "To clip, vectors should be in same CRS as EOPatch bbox!") st).
Proof.
  split; [reflexivity|]. split.
  - exact (proj1 (precondition_errors (example_services opaque_row example_features)
                    (vector_task true false) None None WGS84
                    (from_features example_features WGS84) eq_refl)
             eq_refl eq_refl).
  - refine (proj2 (precondition_errors (example_services opaque_row example_features)
                     (vector_task false true) None (Some utm_bbox) WGS84
                     (from_features example_features WGS84) eq_refl)
              eq_refl eq_refl utm_bbox eq_refl _).
    discriminate.
Defined.

(** C6 as stated fails: with [reproject] enabled and no bounding box, an
    empty dataset makes [execute] fail with the IndexError of
    [geopedia_features[0]], before the check of the bounding box. *)
Lemma reproject_check_preempted :
  reproject (vector_task true false) = true
  ∧ resolve_bbox None None = None
  ∧ execute (example_services opaque_row []) (vector_task true false) None None
    = Fail IndexError None
  ∧ ¬ ∃ st, execute (example_services opaque_row []) (vector_task true false) None None
            = Fail (ValueError "To reproject vector data, eopatch.bbox has to be defined!") st.
Proof.
  split; [reflexivity|]. split; [reflexivity|]. split; [reflexivity|].
  intros [st H]. discriminate H.
Qed.

End VectorProperties.

(** ** What [execute] changes *)

Module FrameProperties.

Section Raster.
Import AddGeopediaFeatureTask.
Context (E : Collaborators) (self : Task).

Lemma base_raster_inv (w : world) (dst : nat * nat) (base : array) (h0 : list (list Z)) :
  base_raster self w dst = Ok (base, h0) →
  (∃ a, features (patch w) !! (feature_type self, feature_name self) = Some (Raster a)
        ∧ base = squeeze a ∧ h0 = heap w)
  ∨ (features (patch w) !! (feature_type self, feature_name self) = None
     ∧ buf base = length (heap w) ∧ ∃ fresh, h0 = heap w ++ [fresh]).
Proof.
  unfold base_raster. intros H.
  destruct (features (patch w) !! _) as [[a|g]|] eqn:Hf; [|done|].
  - injection H as <- <-. left. by exists a.
  - injection H as <- <-. right. eauto.
Qed.

(** The buffers of the store that the raster import leaves as they are:
    all but the one of the existing target layer. *)
Lemma raster_heap_frame (w : world) (dst : nat * nat) (t : RasterTile)
    (raster : array) (h' : list (list Z)) (l : nat) :
  map_raster E self w dst t = Ok (raster, h') →
  l < length (heap w) →
  (∀ a, features (patch w) !! (feature_type self, feature_name self) = Some (Raster a) →
        buf a ≠ l) →
  h' !! l = heap w !! l.
Proof.
  unfold map_raster. intros H Hl Hne.
  destruct (raster_value self) as [d|v|]; [| |done].
  - destruct (_map_from_multiclass E self (patch w) dst t d) as [new|e]; [|done].
    cbn [mbind result_bind] in H. injection H as <- <-.
    by rewrite lookup_app_l.
  - apply RasterProperties.map_from_binaries_steps in H
      as (h0 & mask & new & updated & Hbase & _ & _ & _ & ->).
    apply base_raster_inv in Hbase as [(a & Ha & -> & ->)|(Hnone & Hbuf & fresh & ->)].
    + rewrite list_lookup_insert_ne; [done|]. cbn [squeeze buf]. by apply Hne.
    + rewrite list_lookup_insert_ne by lia. by rewrite lookup_app_l.
Qed.

Lemma raster_frame (w w' : world) :
  execute E self w = Ok w' →
  bbox (patch w') = bbox (patch w)
  ∧ (∀ key, key ≠ (feature_type self, feature_name self) →
       features (patch w') !! key = features (patch w) !! key)
  ∧ (∀ l, l < length (heap w) →
       (∀ a, features (patch w) !! (feature_type self, feature_name self)
             = Some (Raster a) → buf a ≠ l) →
       heap w' !! l = heap w !! l).
Proof.
  intros H.
  apply RasterProperties.execute_inv in H
    as (height & width & tile & raster & h & _ & _ & Hm & ->).
  cbn [patch heap]. split; [done|]. split.
  - intros key Hkey. unfold setitem. cbn [features]. by rewrite lookup_insert_ne.
  - intros l Hl Hne. by eapply raster_heap_frame.
Qed.

End Raster.

Section Vector.
Import GeopediaVectorImportTask.
Context (E : Collaborators) (self : Task).

Lemma vector_frame (p p' : EOPatch) (bbox0 : option BBox) :
  execute E self (Some p) bbox0 = Return p' →
  (∀ key, key ≠ feature self → features p' !! key = features p !! key)
  ∧ (∀ b, bbox p = Some b → bbox p' = Some b)
  ∧ (bbox p = None →
     ∃ c vectors,
       _load_vector_data E self bbox0 = Ok (c, vectors)
       ∧ bbox p'
         = Some (from_option id
                   (MkBBox (total_bounds vectors).1.1.1 (total_bounds vectors).1.1.2
                      (total_bounds vectors).1.2 (total_bounds vectors).2
                      (gdf_crs vectors))
                   bbox0)).
Proof.
  unfold execute. intros H.
  destruct (_load_vector_data E self (resolve_bbox (Some p) bbox0))
    as [[c vectors]|e] eqn:Hload; [|done].
  destruct (total_bounds vectors) as [[[minx miny] maxx] maxy] eqn:Hb.
  cbn [from_option id] in H.
  destruct (_reproject_and_clip E self vectors (resolve_bbox (Some p) bbox0))
    as [clipped|e]; [|done].
  injection H as <-. split; [|split].
  - intros key Hkey. unfold setitem. cbn [features].
    rewrite lookup_insert_ne by done. by destruct (bbox p).
  - intros b Hpb. rewrite Hpb. cbn [setitem bbox]. done.
  - intros Hnone. rewrite Hnone. cbn [setitem bbox].
    assert (resolve_bbox (Some p) bbox0 = bbox0) as Hres.
    { unfold resolve_bbox. destruct bbox0; [done|]. by rewrite Hnone. }
    rewrite Hres in Hload. exists c, vectors. split; [exact Hload|].
    rewrite Hres, Hb. by destruct bbox0.
Qed.

End Vector.

(** C9, as amended.  A successful [execute] on a supplied patch changes the
    binding of no layer but the configured target layer.  The raster import
    keeps the bounding box and every buffer of the store other than the one
    of an existing target layer, into which the binary merge writes in
    place.  The vector import keeps the bounding box of a patch that has
    one and gives the resolved or computed bounding box to a patch that has
    none. *)
Theorem frame_of_execute :
  (∀ E self w w',
     AddGeopediaFeatureTask.execute E self w = Ok w' →
     bbox (patch w') = bbox (patch w)
     ∧ (∀ key,
          key ≠ (AddGeopediaFeatureTask.feature_type self,
                 AddGeopediaFeatureTask.feature_name self) →
          features (patch w') !! key = features (patch w) !! key)
     ∧ (∀ l, l < length (heap w) →
          (∀ a, features (patch w)
                  !! (AddGeopediaFeatureTask.feature_type self,
                      AddGeopediaFeatureTask.feature_name self)
                = Some (Raster a) → buf a ≠ l) →
          heap w' !! l = heap w !! l))
  ∧ (∀ E self p bbox0 p',
       GeopediaVectorImportTask.execute E self (Some p) bbox0
       = GeopediaVectorImportTask.Return p' →
       (∀ key, key ≠ GeopediaVectorImportTask.feature self →
          features p' !! key = features p !! key)
       ∧ (∀ b, bbox p = Some b → bbox p' = Some b)
       ∧ (bbox p = None →
          ∃ c vectors,
            GeopediaVectorImportTask._load_vector_data E self bbox0 = Ok (c, vectors)
            ∧ bbox p'
              = Some (from_option id
                        (MkBBox (total_bounds vectors).1.1.1
                           (total_bounds vectors).1.1.2
                           (total_bounds vectors).1.2 (total_bounds vectors).2
                           (gdf_crs vectors))
                        bbox0))).
Proof.
  split.
  - intros E self w w'. apply raster_frame.
  - intros E self p bbox0 p'. apply vector_frame.
Qed.

Lemma frame_of_execute_witness :
  AddGeopediaFeatureTask.execute (example_services example_tile [])
    (binary_task MASK_TIMELESS) (example_world 2 2) = Ok lakes_world
  ∧ bbox (patch lakes_world) = bbox (patch (example_world 2 2))
  ∧ features (patch lakes_world) !! (MASK, "IS_DATA")
    = features (patch (example_world 2 2)) !! (MASK, "IS_DATA")
  ∧ heap lakes_world !! 0 = heap (example_world 2 2) !! 0
  ∧ GeopediaVectorImportTask.execute (example_services opaque_row example_features)
      (vector_task false false) (Some (MkEOPatch (Some utm_bbox) ∅)) None
    = GeopediaVectorImportTask.Return
        (setitem (MkEOPatch (Some utm_bbox) ∅) (VECTOR_TIMELESS, "LPIS")
           (Vector (from_features example_features WGS84)))
  ∧ bbox (setitem (MkEOPatch (Some utm_bbox) ∅) (VECTOR_TIMELESS, "LPIS")
            (Vector (from_features example_features WGS84)))
    = Some utm_bbox.
Proof.
  assert (AddGeopediaFeatureTask.execute (example_services example_tile [])
            (binary_task MASK_TIMELESS) (example_world 2 2) = Ok lakes_world) as Hr
    by reflexivity.
  destruct (proj1 frame_of_execute _ _ _ _ Hr) as (Hb & Hf & Hh).
  split; [exact Hr|]. split; [exact Hb|].
  split; [apply Hf; discriminate|].
  split; [apply Hh; [simpl; lia | intros a Ha; discriminate Ha]|].
  split; [reflexivity|].
  refine (proj1 (proj2 (proj2 frame_of_execute (example_services opaque_row example_features)
                          (vector_task false false) (MkEOPatch (Some utm_bbox) ∅) None _
                          eq_refl)) utm_bbox eq_refl).
Defined.

(** C9 as stated fails.  The vector import assigns a bounding box to a
    supplied patch that has none; and the binary raster import writes into
    the array of the existing target layer, so that a second layer bound to
    the same array object holds the merged cells afterwards. *)
Lemma frame_broken :
  (GeopediaVectorImportTask.execute (example_services opaque_row example_features)
     (vector_task false false) (Some (MkEOPatch None ∅)) None
   = GeopediaVectorImportTask.Return example_vector_patch
   ∧ bbox example_vector_patch ≠ bbox (MkEOPatch None ∅))
  ∧ ∃ w',
      AddGeopediaFeatureTask.execute (example_services example_tile [])
        (binary_task MASK_TIMELESS) aliased_world = Ok w'
      ∧ features (patch aliased_world) !! (MASK_TIMELESS, "COPY")
        = Some (Raster (Array 1 [2; 2; 1]))
      ∧ features (patch w') !! (MASK_TIMELESS, "COPY")
        = Some (Raster (Array 1 [2; 2; 1]))
      ∧ deref (heap aliased_world) (Array 1 [2; 2; 1])
        = NDArray [2; 2; 1] [0; 0; 0; 0]%Z
      ∧ deref (heap w') (Array 1 [2; 2; 1])
        = NDArray [2; 2; 1] [1; 0; 1; 1]%Z.
Proof.
  split.
  - split; [reflexivity|discriminate].
  - eexists. split; [reflexivity|]. repeat split; reflexivity.
Qed.

End FrameProperties.

(** ** Further properties of the raster import *)

Module RasterCoverage.
Import AddGeopediaFeatureTask.


Section Multiclass.
Context (self : Task).


Lemma label_classes_inv (t : RasterTile) (values : list (Z * list Z)) :
  ∀ raster0 raster,
    label_classes self t values raster0 = Ok raster →
    shape raster = shape raster0
    ∧ (values ≠ [] → shape raster0 = [height t; width t])
    ∧ Forall (λ cl, broadcastable (channels t) (length cl.2) = true) values
    ∧ (length (data raster0) = size_of (shape raster0) →
       length (data raster) = length (data raster0))
    ∧ ∀ k x, data raster !! k = Some x →
        data raster0 !! k = Some x ∨ ∃ ints, (x, ints) ∈ values.
Proof.
  induction values as [|[value intensities] rest IH]; intros raster0 raster H.
  - injection H as <-. split; [done|]. split; [done|]. split; [constructor|].
    split; [done|]. auto.
  - cbn [label_classes] in H.
    destruct (broadcastable (channels t) (length intensities)) eqn:Hb; [|done].
    unfold setitem_mask in H.
    destruct (decide (shape raster0 = [height t; width t])) as [Hs|]; [|done].
    cbn [mbind result_bind] in H.
    apply IH in H as (Hs' & _ & Hall & Hlen & Hcells). cbn [shape data] in *.
    split; [done|]. split; [done|]. split; [by constructor|]. split.
    + intros Hwf. rewrite Hlen.
      * rewrite length_zip_with_r_eq; [done|].
        by rewrite length_fmap, length_pixels, Hwf, Hs, size_of_grid.
      * rewrite length_zip_with_r_eq;
          by rewrite ?length_fmap, ?length_pixels, ?Hwf, ?Hs, ?size_of_grid.
    + intros k x Hx. destruct (Hcells k x Hx) as [Hz|[ints Hin]].
      * apply lookup_zip_with_Some in Hz as (m & x0 & -> & Hm & Hx0).
        destruct m; [|by left]. right. exists intensities. apply elem_of_cons. by left.
      * right. exists ints. apply elem_of_cons. by right.
Qed.

(** X13.  Whatever the tile and the colours, the labels that multi-class
    classification returns lie on the requested grid, one cell per grid
    position, and every cell holds the no-data value or the label of a
    class of the mapping. *)
Theorem labels_in_range (dst : nat * nat) (t : RasterTile)
    (d : list (string * (Z * list Z))) (raster : ndarray Z) :
  multiclass_labels self dst t d = Ok raster →
  shape raster = [dst.1; dst.2]
  ∧ length (data raster) = dst.1 * dst.2
  ∧ ∀ k x, data raster !! k = Some x →
      x = no_data_val self ∨ ∃ name colour, (name, (x, colour)) ∈ d.
Proof.
  unfold multiclass_labels. intros H.
  apply label_classes_inv in H as (Hs & _ & _ & Hlen & Hcells).
  cbn [shape np_mul_scalar np_ones] in Hs. split; [done|]. split.
  - rewrite Hlen; cbn [np_mul_scalar np_ones shape data];
      by rewrite length_fmap, length_replicate, ?size_of_grid.
  - intros k x Hx. destruct (Hcells k x Hx) as [H0|[ints Hin]].
    + left. cbn [np_mul_scalar np_ones shape data] in H0.
      rewrite list_lookup_fmap in H0.
      destruct (replicate _ _ !! k) as [y|] eqn:Hy; [|done].
      apply lookup_replicate in Hy as [-> _]. simpl in H0. injection H0 as <-. lia.
    + right. apply list_elem_of_fmap in Hin as ([name [label colour]] & Heq & Hin).
      simpl in Heq. injection Heq as -> ->. by exists name, colour.
Qed.


End Multiclass.

Lemma size_of_squeeze (s : list nat) : size_of (squeeze_shape s) = size_of s.
Proof.
  unfold size_of, squeeze_shape. induction s as [|n s IH]; [done|].
  rewrite filter_cons. destruct (decide (n ≠ 1)) as [|Hn]; simpl; [by rewrite IH|].
  assert (n = 1) as -> by lia. rewrite IH. lia.
Qed.

Lemma size_of_newaxis (s : list nat) : size_of (newaxis_shape s) = size_of s.
Proof.
  unfold size_of, newaxis_shape. induction s as [|n s IH]; simpl; [done|].
  by rewrite IH.
Qed.

Lemma setitem_nonzero_length (s : list nat) (d u : list Z) (new : ndarray Z) :
  setitem_nonzero s d new = Ok u →
  length d = size_of s → length (data new) = size_of (shape new) →
  length u = length d.
Proof.
  unfold setitem_nonzero. intros H Hd Hn.
  destruct (decide (s = shape new)) as [->|_].
  { injection H as <-. rewrite length_zip_with_l_eq; [done|]. by rewrite Hd, Hn. }
  destruct (decide (take (ndim new) s = shape new ∧ ndim new < length s)) as [_|_];
    [|done].
  repeat case_decide; try done; injection H as <-; by rewrite length_imap.
Qed.

Section Execute.
Context (E : Collaborators) (self : Task).

Lemma reproject_inv (p : EOPatch) (src new : ndarray Z) :
  _reproject E self p src = Ok new →
  ∃ b h w,
    bbox p = Some b ∧ shape src = [h; w]
    ∧ new = NDArray [h; w]
              (warp E (transform E b POP_WEB) b 0 (no_data_val self) h w (data src)
                 <$> seq 0 (h * w)).
Proof.
  unfold _reproject. intros H.
  destruct (bbox p) as [b|]; [|done].
  destruct (shape src) as [|h [|w [|]]]; try done.
  injection H as <-. by exists b, h, w.
Qed.

Lemma reproject_wf (p : EOPatch) (src new : ndarray Z) :
  _reproject E self p src = Ok new →
  shape new = shape src ∧ length (data new) = size_of (shape new).
Proof.
  intros H. apply reproject_inv in H as (b & h & w & _ & Hs & ->).
  cbn [shape data]. by rewrite Hs, length_fmap, length_seq, size_of_grid.
Qed.

(** The three ways in which [map_raster] returns. *)
Lemma map_raster_cases (w : world) (dst : nat * nat) (t : RasterTile)
    (raster : array) (h' : list (list Z)) :
  map_raster E self w dst t = Ok (raster, h') →
  (∃ d labels new,
     raster_value self = RVDict d
     ∧ multiclass_labels self dst t d = Ok labels
     ∧ _reproject E self (patch w) labels = Ok new
     ∧ raster = Array (length (heap w)) (shape new)
     ∧ h' = heap w ++ [data new])
  ∨ (∃ v mask new updated,
       raster_value self = RVScalar v
       ∧ features (patch w) !! (feature_type self, feature_name self) = None
       ∧ _to_binary_mask t v = Ok mask
       ∧ _reproject E self (patch w) mask = Ok new
       ∧ raster = Array (length (heap w)) [dst.1; dst.2]
       ∧ setitem_nonzero [dst.1; dst.2]
           (replicate (dst.1 * dst.2) (1 * no_data_val self)%Z) new = Ok updated
       ∧ h' = heap w ++ [updated])
  ∨ (∃ v a mask new updated,
       raster_value self = RVScalar v
       ∧ features (patch w) !! (feature_type self, feature_name self) = Some (Raster a)
       ∧ _to_binary_mask t v = Ok mask
       ∧ _reproject E self (patch w) mask = Ok new
       ∧ raster = squeeze a
       ∧ setitem_nonzero (squeeze_shape (ashape a)) (heap w !!! buf a) new = Ok updated
       ∧ h' = <[buf a := updated]> (heap w)).
Proof.
  unfold map_raster. intros H.
  destruct (raster_value self) as [d|v|] eqn:Hv; [| |done].
  - left. unfold _map_from_multiclass in H.
    inv_bind H as new Hnew. inv_bind Hnew as labels Hlabels.
    injection H as <- <-. by exists d, labels, new.
  - right. apply RasterProperties.map_from_binaries_steps in H
      as (h0 & mask & new & updated & Hbase & Hmask & Hnew & Hupd & ->).
    destruct (features (patch w) !! (feature_type self, feature_name self))
      as [[a|g]|] eqn:Hf.
    + right. rewrite (RasterProperties.base_raster_existing self w dst a Hf) in Hbase.
      injection Hbase as <- <-. by exists v, a, mask, new, updated.
    + unfold base_raster in Hbase. by rewrite Hf in Hbase.
    + left. rewrite (RasterProperties.base_raster_fresh self w dst Hf) in Hbase.
      injection Hbase as <- <-. cbn [buf ashape] in *.
      rewrite list_lookup_total_middle in Hupd by done.
      exists v, mask, new, updated. repeat split; try done.
      rewrite <- (Nat.add_0_r (length (heap w))) at 1. by rewrite insert_app_r.
Qed.

End Execute.

Section Store.
Context (E : Collaborators) (self : Task).

Lemma written_buf_size (raster : array) :
  buf (if decide (feature_type self = MASK_TIMELESS ∧ length (ashape raster) = 2)
       then newaxis raster else raster) = buf raster
  ∧ size_of (ashape (if decide (feature_type self = MASK_TIMELESS
                                ∧ length (ashape raster) = 2)
                     then newaxis raster else raster))
    = size_of (ashape raster).
Proof.
  destruct (decide _); cbn [newaxis buf ashape]; [|done].
  by rewrite size_of_newaxis.
Qed.

(** What [map_raster] does to the store: every buffer keeps its length, and
    the buffer of the returned array has the cells of its shape. *)
Lemma map_raster_store (w : world) (dst : nat * nat) (t : RasterTile)
    (raster : array) (h' : list (list Z)) :
  wf_world w →
  map_raster E self w dst t = Ok (raster, h') →
  (∀ l cells, heap w !! l = Some cells →
     ∃ cells', h' !! l = Some cells' ∧ length cells' = length cells)
  ∧ ∃ cells, h' !! buf raster = Some cells ∧ length cells = size_of (ashape raster).
Proof.
  intros Hwf H.
  apply map_raster_cases in H
    as [(d & labels & new & _ & Hl & Hn & -> & ->)
       |[(v & mask & new & updated & _ & _ & Hm & Hn & -> & Hu & ->)
        |(v & a & mask & new & updated & _ & Hf & Hm & Hn & -> & Hu & ->)]].
  - apply reproject_wf in Hn as [_ Hlen]. split.
    + intros l cells Hc. exists cells. by rewrite (lookup_app_l_Some _ _ _ _ Hc).
    + exists (data new). cbn [buf ashape]. by rewrite list_lookup_middle.
  - apply reproject_wf in Hn as [_ Hlen].
    apply setitem_nonzero_length in Hu;
      [|by rewrite length_replicate, size_of_grid|done].
    rewrite length_replicate in Hu. split.
    + intros l cells Hc. exists cells. by rewrite (lookup_app_l_Some _ _ _ _ Hc).
    + exists updated. cbn [buf ashape].
      by rewrite list_lookup_middle, size_of_grid.
  - apply reproject_wf in Hn as [_ Hlen].
    destruct (Hwf _ _ Hf) as (cells0 & Hc0 & Hlen0).
    rewrite (list_lookup_total_correct _ _ _ Hc0) in Hu.
    apply setitem_nonzero_length in Hu; [|by rewrite size_of_squeeze|done].
    pose proof (lookup_lt_Some _ _ _ Hc0) as Hlt. split.
    + intros l cells Hc. destruct (decide (l = buf a)) as [->|Hne].
      * exists updated. rewrite list_lookup_insert_eq by done.
        split; [done|]. congruence.
      * exists cells. by rewrite list_lookup_insert_ne.
    + exists updated. cbn [squeeze buf ashape].
      rewrite list_lookup_insert_eq by done. split; [done|].
      by rewrite size_of_squeeze, Hu.
Qed.

(** X5.  The raster import keeps the store consistent: if, before
    [execute], every array of the patch has as many cells as its shape
    says, then so has every array of the patch that a successful [execute]
    returns, the written layer included. *)
Theorem execute_keeps_store_consistent (w w' : world) :
  wf_world w → execute E self w = Ok w' → wf_world w'.
Proof.
  intros Hwf H.
  apply RasterProperties.execute_inv in H
    as (height & width & tile & raster & h & _ & _ & Hm & ->).
  destruct (map_raster_store _ _ _ _ _ Hwf Hm) as [Hold (cells & Hc & Hlen)].
  destruct (written_buf_size raster) as [Hbuf Hsize].
  intros key a. unfold setitem. cbn [patch heap features].
  destruct (decide (key = (feature_type self, feature_name self))) as [->|Hne].
  - rewrite lookup_insert_eq. intros [= <-]. exists cells.
    by rewrite Hbuf, Hsize.
  - rewrite lookup_insert_ne by done. intros Ha.
    destruct (Hwf _ _ Ha) as (cells0 & Hc0 & Hlen0).
    destruct (Hold _ _ Hc0) as (cells' & Hc' & Hlen').
    exists cells'. split; [done|]. congruence.
Qed.

(** X6.  In multi-class mode, and in binary mode when the patch has no
    target layer yet, a successful [execute] writes into no array of the
    store: the store grows by one buffer, to which the target layer is
    bound, and the array an existing target layer was bound to keeps its
    cells. *)
Theorem import_into_new_array (w w' : world) :
  execute E self w = Ok w' →
  (∃ d, raster_value self = RVDict d)
  ∨ features (patch w) !! (feature_type self, feature_name self) = None →
  ∃ cells a,
    heap w' = heap w ++ [cells]
    ∧ features (patch w') !! (feature_type self, feature_name self) = Some (Raster a)
    ∧ buf a = length (heap w).
Proof.
  intros H Hmode.
  apply RasterProperties.execute_inv in H
    as (height & width & tile & raster & h & _ & _ & Hm & ->).
  destruct (written_buf_size raster) as [Hbuf _].
  unfold setitem. cbn [patch heap features]. rewrite lookup_insert_eq.
  apply map_raster_cases in Hm
    as [(d & labels & new & _ & _ & _ & -> & ->)
       |[(v & mask & new & updated & _ & _ & _ & _ & -> & _ & ->)
        |(v & a & mask & new & updated & Hv & Hf & _)]].
  - eexists _, _. split; [done|]. split; [done|]. by rewrite Hbuf.
  - eexists _, _. split; [done|]. split; [done|]. by rewrite Hbuf.
  - destruct Hmode as [[d Hd]|Hnone]; congruence.
Qed.

End Store.

Lemma bind_Raise {A B} (r : result A) (f : A → result B) (e : exn) :
  r ≫= f = Raise e → r = Raise e ∨ ∃ a, r = Ok a ∧ f a = Raise e.
Proof.
  destruct r as [a|e']; intros H; [right; by exists a|left].
  by injection H as ->.
Qed.

Section Errors.
Context (E : Collaborators) (self : Task).

(** X3.  The order in which [execute] reports what is missing: the
    validity mask first (KeyError when the patch has no IS_DATA mask, a
    ValueError when the mask is not 4-D), then the bounding box, then the
    response (a ValueError unless the request, for a tile of the width and
    height of the mask in the transformed bounding box, returns exactly one
    tile), and only then the type of [raster_value]. *)
Theorem execute_error_order (w : world) :
  (features (patch w) !! (MASK, "IS_DATA") = None →
   execute E self w = Raise KeyError)
  ∧ (∀ a, features (patch w) !! (MASK, "IS_DATA") = Some (Raster a) →
       length (ashape a) ≠ 4 →
       ∃ msg, execute E self w = Raise (ValueError msg))
  ∧ (∀ b t h wd c,
       features (patch w) !! (MASK, "IS_DATA") = Some (Raster (Array b [t; h; wd; c])) →
       (bbox (patch w) = None →
        execute E self w = Raise (ValueError "Bbox has to be defined!"))
       ∧ ∀ box, bbox (patch w) = Some box →
           (length (get_data E
                      {| req_layer := layer self; req_theme := theme self;
                         req_bbox := transform E box POP_WEB;
                         req_width := wd; req_height := h;
                         req_image_format := image_format self |}) ≠ 1 →
            ∃ msg, execute E self w = Raise (ValueError msg))
           ∧ (∀ tile,
                get_data E
                  {| req_layer := layer self; req_theme := theme self;
                     req_bbox := transform E box POP_WEB;
                     req_width := wd; req_height := h;
                     req_image_format := image_format self |} = [tile] →
                raster_value self = RVOther →
                execute E self w
                = Raise (ValueError "Unsupported raster value type"))).
Proof.
  split; [|split].
  - intros H. unfold execute, data_shape. by rewrite H.
  - intros a H Hlen. unfold execute, data_shape. rewrite H.
    destruct (ashape a) as [|? [|? [|? [|? [|? ?]]]]]; simpl in Hlen;
      try lia; by eexists.
  - intros b t h wd c H. split.
    + intros Hb. unfold execute, data_shape, fetch, _get_wms_request.
      by rewrite H, Hb.
    + intros box Hb. split.
      * intros Hlen. unfold execute, data_shape, fetch, _get_wms_request.
        rewrite H, Hb. cbn [ashape mbind result_bind].
        destruct (get_data E _) as [|tile [|tile' tiles]]; simpl in Hlen;
          try lia; by eexists.
      * intros tile Htile Hv. unfold execute, data_shape, fetch, _get_wms_request.
        rewrite H, Hb. cbn [ashape mbind result_bind]. rewrite Htile.
        cbn [mbind result_bind]. unfold map_raster. by rewrite Hv.
Qed.

Lemma label_classes_raises (t : RasterTile) (values : list (Z * list Z)) :
  ∀ raster0 e,
    label_classes self t values raster0 = Raise e →
    e = IndexError ∨ e = ValueError "operands could not be broadcast together".
Proof.
  induction values as [|[value intensities] rest IH]; intros raster0 e H; [done|].
  cbn [label_classes] in H.
  destruct (broadcastable _ _); [|injection H as <-; by right].
  apply bind_Raise in H as [H|(raster' & _ & H)]; [|by eapply IH].
  unfold setitem_mask in H. case_decide; [done|]. injection H as <-. by left.
Qed.

Lemma reproject_raises (p : EOPatch) (src : ndarray Z) (e : exn) :
  is_Some (bbox p) →
  _reproject E self p src = Raise e →
  e = ValueError "not enough values to unpack".
Proof.
  intros [b Hb]. unfold _reproject. rewrite Hb.
  destruct (shape src) as [|? [|? [|? ?]]]; intros H; by simplify_eq.
Qed.

Lemma setitem_nonzero_raises (s : list nat) (d : list Z) (new : ndarray Z) (e : exn) :
  setitem_nonzero s d new = Raise e →
  e = IndexError
  ∨ e = ValueError "shape mismatch: value array could not be broadcast to indexing result".
Proof.
  unfold setitem_nonzero. intros H.
  repeat case_decide; simplify_eq; auto.
Qed.

(** X4.  Whatever [execute] raises, it is not the ValueError with which
    [_reproject] reports a missing bounding box: when the patch has none,
    the request of the tile has failed before. *)
Theorem reproject_check_never_fires (w : world) (e : exn) :
  execute E self w = Raise e →
  e ≠ ValueError "To reproject raster data, eopatch.bbox has to be defined!".
Proof.
  unfold execute. intros H ->.
  apply bind_Raise in H as [H|([height width] & _ & H)].
  { unfold data_shape in H. repeat case_match; simplify_eq. }
  apply bind_Raise in H as [H|(tile & Htile & H)].
  { unfold fetch, _get_wms_request in H.
    destruct (bbox (patch w)); cbn [mbind result_bind] in H;
      repeat case_match; simplify_eq. }
  assert (is_Some (bbox (patch w))) as Hbox.
  { unfold fetch, _get_wms_request in Htile.
    destruct (bbox (patch w)); [by eexists|done]. }
  apply bind_Raise in H as [H|([raster h] & _ & H)]; [|done].
  unfold map_raster in H. destruct (raster_value self) as [d|v|]; [| |done].
  - apply bind_Raise in H as [H|(new & _ & H)]; [|done].
    unfold _map_from_multiclass in H.
    apply bind_Raise in H as [H|(labels & _ & H)].
    + apply label_classes_raises in H as [H|H]; done.
    + by apply reproject_raises in H.
  - unfold _map_from_binaries in H.
    apply bind_Raise in H as [H|([base h0] & _ & H)].
    { unfold base_raster in H. repeat case_match; simplify_eq. }
    apply bind_Raise in H as [H|(mask & _ & H)].
    { unfold _to_binary_mask in H. case_decide; simplify_eq. }
    apply bind_Raise in H as [H|(new & _ & H)].
    { by apply reproject_raises in H. }
    apply bind_Raise in H as [H|(updated & _ & H)]; [|done].
    apply setitem_nonzero_raises in H as [H|H]; done.
Qed.

End Errors.

Section EndToEnd.
Context (E : Collaborators) (self : Task).


End EndToEnd.

Section Accumulate.
Context (E : Collaborators).

Lemma setitem_nonzero_grid (s : list nat) (d u : list Z) (new : ndarray Z) :
  length s = 2 → ndim new = 2 →
  setitem_nonzero s d new = Ok u →
  s = shape new
  ∧ u = zip_with (λ x n, if decide (n ≠ 0%Z) then n else x) d (data new).
Proof.
  unfold setitem_nonzero. intros Hs Hn H.
  destruct (decide (s = shape new)) as [->|_]; [by injection H as <-|].
  rewrite decide_False in H; [done|]. intros [_ Hlt]. lia.
Qed.

Lemma reproject_grid_cells (self : Task) (p : EOPatch) (src new : ndarray Z) :
  _reproject E self p src = Ok new →
  ndim new = 2 ∧ ∀ h w, shape new = [h; w] → length (data new) = h * w.
Proof.
  intros H. apply reproject_inv in H as (b & h & w & _ & _ & ->). split; [done|].
  intros h' w' [= <- <-]. cbn [data]. by rewrite length_fmap, length_seq.
Qed.

(** X7.  Two binary imports into one layer accumulate.  On a grid with
    neither height 1 nor width 1 and a patch without the target layer, an
    import with one task followed by an import with a second task for the
    same layer leaves, at every grid position, the second reprojected
    raster where it is nonzero, else the first reprojected raster where
    that is nonzero, else the no-data value of the first task. *)
Theorem binary_imports_accumulate (selfA selfB : Task) (w w1 w2 : world)
    (vA vB : Z) (height width : nat) :
  feature_type selfB = feature_type selfA →
  feature_name selfB = feature_name selfA →
  (feature_type selfA, feature_name selfA) ≠ (MASK, "IS_DATA") →
  raster_value selfA = RVScalar vA → raster_value selfB = RVScalar vB →
  features (patch w) !! (feature_type selfA, feature_name selfA) = None →
  data_shape (patch w) = Ok (height, width) → height ≠ 1 → width ≠ 1 →
  execute E selfA w = Ok w1 →
  execute E selfB w1 = Ok w2 →
  ∃ tileA tileB maskA maskB newA newB a,
    fetch E selfA (patch w) height width = Ok tileA
    ∧ fetch E selfB (patch w) height width = Ok tileB
    ∧ _to_binary_mask tileA vA = Ok maskA
    ∧ _reproject E selfA (patch w) maskA = Ok newA
    ∧ _to_binary_mask tileB vB = Ok maskB
    ∧ _reproject E selfB (patch w) maskB = Ok newB
    ∧ features (patch w2) !! (feature_type selfA, feature_name selfA) = Some (Raster a)
    ∧ ∀ k, k < height * width →
        ∃ nA nB,
          data newA !! k = Some nA ∧ data newB !! k = Some nB
          ∧ (heap w2 !!! buf a) !! k
            = Some (if decide (nB ≠ 0%Z) then nB
                    else if decide (nA ≠ 0%Z) then nA
                    else no_data_val selfA).
Proof.
  intros Hft Hfn Hkey HvA HvB Hnone Hshape Hh Hw HA HB.
  (* the first import *)
  apply RasterProperties.execute_inv in HA
    as (h' & w' & tileA & rasterA & h1 & Hs & HtA & HmA & ->).
  rewrite Hshape in Hs. injection Hs as <- <-.
  apply map_raster_cases in HmA
    as [(d & _ & _ & Hd & _)
       |[(v & maskA & newA & updA & Hv & _ & HmaskA & HnewA & -> & HuA & ->)
        |(v & a & _ & _ & _ & _ & Hf & _)]]; [congruence| |congruence].
  rewrite HvA in Hv. injection Hv as <-. cbn [fst snd] in *.
  destruct (reproject_grid_cells _ _ _ _ HnewA) as [HndA HlenA].
  apply setitem_nonzero_grid in HuA as [HsA ->]; [|done..].
  specialize (HlenA _ _ (eq_sym HsA)).
  set (rasterA := Array (length (heap w)) [height; width]) in *.
  set (written := if decide (feature_type selfA = MASK_TIMELESS
                             ∧ length (ashape rasterA) = 2)
                  then newaxis rasterA else rasterA) in *.
  assert (buf written = length (heap w)
          ∧ squeeze_shape (ashape written) = [height; width]) as [Hbuf Hsq].
  { unfold written. destruct (decide _); cbn [newaxis rasterA buf ashape];
      rewrite ?squeeze_shape_newaxis; split; try done;
      by apply squeeze_shape_grid. }
  set (updA := zip_with (λ x n, if decide (n ≠ 0%Z) then n else x)
                 (replicate (height * width) (1 * no_data_val selfA)%Z) (data newA))
    in *.
  set (w1 := World (heap w ++ [updA])
               (setitem (patch w) (feature_type selfA, feature_name selfA)
                  (Raster written))) in *.
  (* the second import *)
  apply RasterProperties.execute_inv in HB
    as (h' & w' & tileB & rasterB & h2 & Hs & HtB & HmB & ->).
  assert (data_shape (patch w1) = Ok (height, width)) as Hs1.
  { unfold data_shape, w1. cbn [patch setitem features].
    rewrite lookup_insert_ne by done. exact Hshape. }
  rewrite Hs1 in Hs. injection Hs as <- <-.
  rewrite (RasterProperties.fetch_bbox E selfB (patch w) (patch w1)) in HtB by done.
  apply map_raster_cases in HmB
    as [(d & _ & _ & Hd & _)
       |[(v & _ & _ & _ & _ & Hf & _)
        |(v & a & maskB & newB & updB & Hv & Hf & HmaskB & HnewB & -> & HuB & ->)]];
    [congruence| |].
  { rewrite Hft, Hfn in Hf. unfold w1 in Hf. cbn [patch setitem features] in Hf.
    by rewrite lookup_insert_eq in Hf. }
  rewrite HvB in Hv. injection Hv as <-.
  rewrite Hft, Hfn in Hf. unfold w1 in Hf. cbn [patch setitem features] in Hf.
  rewrite lookup_insert_eq in Hf. injection Hf as <-.
  rewrite (RasterProperties.reproject_bbox E selfB (patch w) (patch w1)) in HnewB
    by done.
  destruct (reproject_grid_cells _ _ _ _ HnewB) as [HndB HlenB].
  rewrite Hsq, Hbuf in HuB. cbn [heap w1] in HuB.
  rewrite list_lookup_total_middle in HuB by done.
  apply setitem_nonzero_grid in HuB as [HsB ->]; [|done..].
  specialize (HlenB _ _ (eq_sym HsB)).
  exists tileA, tileB, maskA, maskB, newA, newB.
  eexists. split; [done|]. split; [done|]. split; [done|]. split; [done|].
  split; [done|]. split; [done|]. split.
  { cbn [patch setitem features]. rewrite Hft, Hfn. apply lookup_insert_eq. }
  intros k Hk.
  destruct (lookup_lt_is_Some_2 (data newA) k) as [nA HnA]; [lia|].
  destruct (lookup_lt_is_Some_2 (data newB) k) as [nB HnB]; [lia|].
  exists nA, nB. split; [done|]. split; [done|].
  match goal with |- context [buf (if ?c then _ else _)] =>
    assert (buf (if c then newaxis (squeeze written) else squeeze written)
            = length (heap w)) as ->
      by (destruct c; cbn [newaxis squeeze buf]; exact Hbuf)
  end.
  cbn [heap]. rewrite Hbuf. unfold w1. cbn [heap].
  rewrite list_lookup_total_insert_eq by (rewrite length_app; simpl; lia).
  rewrite lookup_zip_with, HnB. unfold updA.
  rewrite lookup_zip_with, HnA, (lookup_replicate_2 _ _ _ Hk). simpl. f_equal.
  repeat case_decide; first [done | lia].
Qed.

End Accumulate.

(** *** The statements at the example data *)

Lemma example_world_wf (h w : nat) : wf_world (example_world h w).
Proof.
  intros key a Ha. unfold example_world in *. cbn [patch heap features] in *.
  apply lookup_singleton_Some in Ha as [_ [= <-]].
  exists (replicate (h * w) 1%Z). split; [done|].
  rewrite length_replicate. unfold size_of. simpl. lia.
Qed.




Lemma labels_in_range_witness :
  multiclass_labels multiclass_task (2, 2) example_tile example_classes
  = Ok (NDArray [2; 2] [2; 0; 5; 0]%Z)
  ∧ length [2; 0; 5; 0]%Z = 2 * 2
  ∧ ∀ k x, [2; 0; 5; 0]%Z !! k = Some x →
      x = no_data_val multiclass_task
      ∨ ∃ name colour, (name, (x, colour)) ∈ example_classes.
Proof.
  split; [reflexivity|].
  exact (proj2 (labels_in_range multiclass_task (2, 2) example_tile example_classes
                  (NDArray [2; 2] [2; 0; 5; 0]%Z) eq_refl)).
Defined.

Lemma execute_keeps_store_consistent_witness :
  wf_world (example_world 2 2)
  ∧ execute (example_services example_tile []) (binary_task MASK_TIMELESS)
      (example_world 2 2) = Ok lakes_world
  ∧ wf_world lakes_world.
Proof.
  split; [apply example_world_wf|]. split; [reflexivity|].
  exact (execute_keeps_store_consistent (example_services example_tile [])
           (binary_task MASK_TIMELESS) (example_world 2 2) lakes_world
           (example_world_wf 2 2) eq_refl).
Defined.

Lemma import_into_new_array_witness :
  execute (example_services example_tile []) (binary_task MASK_TIMELESS)
    (example_world 2 2) = Ok lakes_world
  ∧ ∃ cells a,
      heap lakes_world = heap (example_world 2 2) ++ [cells]
      ∧ features (patch lakes_world) !! (MASK_TIMELESS, "LAKES") = Some (Raster a)
      ∧ buf a = length (heap (example_world 2 2)).
Proof.
  split; [reflexivity|].
  refine (import_into_new_array (example_services example_tile [])
            (binary_task MASK_TIMELESS) (example_world 2 2) lakes_world eq_refl _).
  right. reflexivity.
Defined.

Lemma execute_error_order_witness :
  execute (example_services example_tile []) (binary_task MASK_TIMELESS)
    (World [] (MkEOPatch None ∅)) = Raise KeyError
  ∧ execute (example_services example_tile [])
      {| feature_type := MASK_TIMELESS; feature_name := "LAKES";
         layer := "ttl2275"; theme := "lakes"; raster_value := RVOther;
         no_data_val := 0; image_format := "png"; mean_abs_difference := 2 |}
      (example_world 2 2)
    = Raise (ValueError "Unsupported raster value type").
Proof.
  split.
  - exact (proj1 (execute_error_order (example_services example_tile [])
                    (binary_task MASK_TIMELESS) (World [] (MkEOPatch None ∅)))
             eq_refl).
  - exact (proj2 (proj2 (proj2 (proj2 (execute_error_order
                                         (example_services example_tile [])
                                         {| feature_type := MASK_TIMELESS;
                                            feature_name := "LAKES";
                                            layer := "ttl2275"; theme := "lakes";
                                            raster_value := RVOther;
                                            no_data_val := 0; image_format := "png";
                                            mean_abs_difference := 2 |}
                                         (example_world 2 2)))
                                 0 1 2 2 1 eq_refl) example_bbox eq_refl)
             example_tile eq_refl eq_refl).
Defined.

Lemma reproject_check_never_fires_witness :
  execute (example_services example_tile []) (binary_task MASK_TIMELESS)
    (World [[1; 1; 1; 1]%Z]
       (MkEOPatch None {[ (MASK, "IS_DATA") := Raster (Array 0 [1; 2; 2; 1]) ]}))
  = Raise (ValueError "Bbox has to be defined!")
  ∧ ValueError "Bbox has to be defined!"
    ≠ ValueError "To reproject raster data, eopatch.bbox has to be defined!".
Proof.
  split; [reflexivity|].
  exact (reproject_check_never_fires (example_services example_tile [])
           (binary_task MASK_TIMELESS)
           (World [[1; 1; 1; 1]%Z]
              (MkEOPatch None
                 {[ (MASK, "IS_DATA") := Raster (Array 0 [1; 2; 2; 1]) ]}))
           (ValueError "Bbox has to be defined!") eq_refl).
Defined.

Lemma binary_imports_accumulate_witness :
  let E := two_theme_services in
  let selfA := binary_task MASK_TIMELESS in
  let selfB := forest_task in
  let w := example_world 2 2 in
  execute E selfA w = Ok lake_world
  ∧ execute E selfB lake_world = Ok lake_forest_world
  ∧ ∃ tileA tileB maskA maskB newA newB a,
      fetch E selfA (patch w) 2 2 = Ok tileA
      ∧ fetch E selfB (patch w) 2 2 = Ok tileB
      ∧ _to_binary_mask tileA 1 = Ok maskA
      ∧ _reproject E selfA (patch w) maskA = Ok newA
      ∧ _to_binary_mask tileB 2 = Ok maskB
      ∧ _reproject E selfB (patch w) maskB = Ok newB
      ∧ features (patch lake_forest_world) !! (feature_type selfA, feature_name selfA)
        = Some (Raster a)
      ∧ ∀ k, k < 2 * 2 →
          ∃ nA nB,
            data newA !! k = Some nA ∧ data newB !! k = Some nB
            ∧ (heap lake_forest_world !!! buf a) !! k
              = Some (if decide (nB ≠ 0%Z) then nB
                      else if decide (nA ≠ 0%Z) then nA
                      else no_data_val selfA).
Proof.
  intros E selfA selfB w.
  split; [reflexivity|]. split; [reflexivity|].
  refine (binary_imports_accumulate E selfA selfB w lake_world lake_forest_world
            1 2 2 2 eq_refl eq_refl _ eq_refl eq_refl eq_refl eq_refl _ _
            eq_refl eq_refl); discriminate.
Defined.


End RasterCoverage.

(** ** Further properties of the vector import *)

Module VectorCoverage.
Import GeopediaVectorImportTask.

Section Execute.
Context (E : Collaborators) (self : Task).

Lemma reproject_and_clip_crs (vectors out : GeoDataFrame) (bbox1 : option BBox) :
  _reproject_and_clip E self vectors bbox1 = Ok out →
  (reproject self = true ∨ clip self = true →
   ∃ b, bbox1 = Some b ∧ gdf_crs out = crs b)
  ∧ (reproject self = false → clip self = false → out = vectors).
Proof.
  unfold _reproject_and_clip. intros H.
  destruct (reproject self), (clip self), bbox1 as [b|];
    cbn [mbind result_bind gdf_crs] in H; try done.
  - destruct (decide (crs b ≠ crs b)); [done|]. injection H as <-.
    split; [intros _; by exists b|done].
  - injection H as <-. split; [intros _; by exists b|done].
  - destruct (decide (gdf_crs vectors ≠ crs b)) as [|Heq]; [done|].
    injection H as <-. split; [|done]. intros _. exists b. split; [done|].
    cbn [gdf_crs]. by destruct (decide (gdf_crs vectors = crs b)).
  - injection H as <-. split; [|done]. by intros [|].
  - injection H as <-. split; [|done]. by intros [|].
Qed.

Lemma execute_return_inv (eopatch : option EOPatch) (bbox0 : option BBox)
    (p' : EOPatch) :
  execute E self eopatch bbox0 = Return p' →
  ∃ c vectors out,
    _load_vector_data E self (resolve_bbox eopatch bbox0) = Ok (c, vectors)
    ∧ _reproject_and_clip E self vectors (resolve_bbox eopatch bbox0) = Ok out
    ∧ features p' !! feature self = Some (Vector out).
Proof.
  unfold execute. intros H.
  destruct (_load_vector_data E self _) as [[c vectors]|e] eqn:Hload; [|done].
  destruct (total_bounds vectors) as [[[minx miny] maxx] maxy].
  destruct (_reproject_and_clip E self vectors _) as [out|e] eqn:Hrc; [|done].
  injection H as <-. exists c, vectors, out. split; [done|]. split; [done|].
  unfold setitem. cbn [features]. apply lookup_insert_eq.
Qed.

(** X10.  The CRS of the imported layer.  When [execute] returns with
    [reproject] or [clip] enabled, a bounding box was resolved (the
    argument, else the one of the patch) and the vector layer is in the CRS
    of that bounding box; with both disabled the layer is the fetched data
    frame, in the CRS of the dataset. *)
Theorem imported_layer_crs (eopatch : option EOPatch) (bbox0 : option BBox)
    (p' : EOPatch) :
  execute E self eopatch bbox0 = Return p' →
  ∃ c vectors out,
    _load_vector_data E self (resolve_bbox eopatch bbox0) = Ok (c, vectors)
    ∧ gdf_crs vectors = c
    ∧ features p' !! feature self = Some (Vector out)
    ∧ (reproject self = true ∨ clip self = true →
       ∃ b, resolve_bbox eopatch bbox0 = Some b ∧ gdf_crs out = crs b)
    ∧ (reproject self = false → clip self = false → out = vectors).
Proof.
  intros H. apply execute_return_inv in H as (c & vectors & out & Hload & Hrc & Hf).
  exists c, vectors, out. split; [done|]. split.
  { apply VectorProperties.load_inv in Hload as (? & ? & ? & ? & _ & _ & _ & _ & ->).
    done. }
  split; [done|]. by apply reproject_and_clip_crs in Hrc.
Qed.

(** X9.  What a failing [execute] leaves of a supplied patch.  Its layers
    are never changed.  When loading fails, the patch is as it was given;
    when reprojection or clipping fails, a patch that had a bounding box
    is as it was given, and a patch that had none has been assigned the
    resolved or computed bounding box before the failure. *)
Theorem failure_leaves_layers (p : EOPatch) (bbox0 : option BBox) (e : exn)
    (st : option EOPatch) :
  execute E self (Some p) bbox0 = Fail e st →
  ∃ p', st = Some p' ∧ features p' = features p
    ∧ ((_load_vector_data E self (resolve_bbox (Some p) bbox0) = Raise e ∧ p' = p)
       ∨ ∃ c vectors,
           _load_vector_data E self (resolve_bbox (Some p) bbox0) = Ok (c, vectors)
           ∧ _reproject_and_clip E self vectors (resolve_bbox (Some p) bbox0) = Raise e
           ∧ bbox p'
             = Some (from_option id
                       (from_option id
                          (MkBBox (total_bounds vectors).1.1.1
                             (total_bounds vectors).1.1.2
                             (total_bounds vectors).1.2 (total_bounds vectors).2
                             (gdf_crs vectors))
                          bbox0)
                       (bbox p))).
Proof.
  unfold execute. intros H.
  destruct (_load_vector_data E self (resolve_bbox (Some p) bbox0))
    as [[c vectors]|e'] eqn:Hload.
  - destruct (total_bounds vectors) as [[[minx miny] maxx] maxy] eqn:Hb.
    destruct (_reproject_and_clip E self vectors _) as [out|e''] eqn:Hrc; [done|].
    injection H as <- <-. cbn [from_option id fmap option_fmap option_map].
    eexists. split; [reflexivity|]. split.
    { by destruct (bbox p). }
    right. exists c, vectors. split; [done|]. split; [done|].
    unfold resolve_bbox. destruct (bbox p) as [bp|] eqn:Hbp; cbn [bbox from_option id].
    + by rewrite Hbp.
    + cbn [bbox]. rewrite Hb. by destruct bbox0.
  - injection H as <- <-. exists p. split; [done|]. split; [done|]. by left.
Qed.

(** X11.  The order of the errors of the vector import.  A first feature
    without geometry, without a CRS name or with a CRS name that does not
    parse stops [execute] before the bounding box is looked at, with the
    ValueError that names the table, a KeyError, or a ValueError, and the
    caller's patch as it was given.  Once the data is loaded, [clip]
    without a resolved bounding box is reported (with its own ValueError)
    only if [reproject] is disabled. *)
Theorem vector_error_order (eopatch : option EOPatch) (bbox0 : option BBox)
    (first : GeopediaFeature) (rest : list GeopediaFeature) :
  feature_iterator E (geopedia_table self)
    ((λ b, transform_bounds E b POP_WEB) <$> resolve_bbox eopatch bbox0)
  = first :: rest →
  (geometry first = None →
   execute E self eopatch bbox0
   = Fail (ValueError ("Geopedia table " +:+ dquote +:+ geopedia_table self
                       +:+ dquote +:+ " does not contain geometries!")) eopatch)
  ∧ (∀ g, geometry first = Some g →
       (crs_name g = None → execute E self eopatch bbox0 = Fail KeyError eopatch)
       ∧ (∀ name, crs_name g = Some name →
            (parse_crs E name = None →
             ∃ msg, execute E self eopatch bbox0 = Fail (ValueError msg) eopatch)
            ∧ (∀ c, parse_crs E name = Some c →
                 resolve_bbox eopatch bbox0 = None → clip self = true →
                 ∃ st, execute E self eopatch bbox0
                       = Fail (ValueError
                                 (if reproject self
                                  then "To reproject vector data, eopatch.bbox has to be defined!"
                                  else "To clip vector data, eopatch.bbox has to be defined!"))
                              st))).
Proof.
  intros Hit. split; [|intros g Hg; split; [|intros name Hn; split]].
  - intros Hg. unfold execute, _load_vector_data. by rewrite Hit, Hg.
  - intros Hn. unfold execute, _load_vector_data. by rewrite Hit, Hg, Hn.
  - intros Hp. unfold execute, _load_vector_data. rewrite Hit, Hg, Hn, Hp.
    by eexists.
  - intros c Hp Hres Hclip. unfold execute, _load_vector_data.
    rewrite Hit, Hg, Hn, Hp, Hres.
    destruct (total_bounds _) as [[[minx miny] maxx] maxy].
    unfold _reproject_and_clip. rewrite Hclip.
    destruct (reproject self); cbn [mbind result_bind]; by eexists.
Qed.

End Execute.

Lemma imported_layer_crs_witness :
  execute (example_services opaque_row example_features) (vector_task true false)
    None (Some utm_bbox)
  = Return (setitem (MkEOPatch (Some utm_bbox) ∅) (VECTOR_TIMELESS, "LPIS")
              (Vector (MkGeoDataFrame (rows (from_features example_features WGS84))
                         (EPSG 32633))))
  ∧ ∃ c vectors out,
      _load_vector_data (example_services opaque_row example_features)
        (vector_task true false) (Some utm_bbox) = Ok (c, vectors)
      ∧ gdf_crs vectors = c
      ∧ features (setitem (MkEOPatch (Some utm_bbox) ∅) (VECTOR_TIMELESS, "LPIS")
                    (Vector (MkGeoDataFrame
                               (rows (from_features example_features WGS84))
                               (EPSG 32633))))
          !! (VECTOR_TIMELESS, "LPIS") = Some (Vector out)
      ∧ (true = true ∨ false = true →
         ∃ b, Some utm_bbox = Some b ∧ gdf_crs out = crs b)
      ∧ (true = false → false = false → out = vectors).
Proof.
  split; [reflexivity|].
  exact (imported_layer_crs (example_services opaque_row example_features)
           (vector_task true false) None (Some utm_bbox) _ eq_refl).
Defined.

Lemma failure_leaves_layers_witness :
  execute (example_services opaque_row example_features) (vector_task false true)
    (Some (MkEOPatch None ∅)) (Some utm_bbox)
  = Fail (ValueError "To clip, vectors should be in same CRS as EOPatch bbox!")
      (Some (MkEOPatch (Some utm_bbox) ∅))
  ∧ ∃ p', Some (MkEOPatch (Some utm_bbox) ∅) = Some p'
      ∧ features p' = features (MkEOPatch None ∅)
      ∧ bbox p' = Some utm_bbox.
Proof.
  split; [reflexivity|].
  destruct (failure_leaves_layers (example_services opaque_row example_features)
              (vector_task false true) (MkEOPatch None ∅) (Some utm_bbox) _ _ eq_refl)
    as (p' & Hst & Hf & Hcase).
  exists p'. split; [exact Hst|]. split; [exact Hf|].
  by injection Hst as <-.
Defined.

Lemma vector_error_order_witness :
  feature_iterator (example_services opaque_row headless_features) "ttl1904" None
  = headless_features
  ∧ execute (example_services opaque_row headless_features) (vector_task true true)
      None None
    = Fail (ValueError ("Geopedia table " +:+ dquote +:+ "ttl1904"
                        +:+ dquote +:+ " does not contain geometries!")) None
  ∧ ∃ st, execute (example_services opaque_row example_features)
            (vector_task false true) None None
          = Fail (ValueError "To clip vector data, eopatch.bbox has to be defined!") st.
Proof.
  split; [reflexivity|]. split.
  - exact (proj1 (vector_error_order (example_services opaque_row headless_features)
                    (vector_task true true) None None _ _ eq_refl) eq_refl).
  - exact (proj2 (proj2 (proj2 (vector_error_order
                                  (example_services opaque_row example_features)
                                  (vector_task false true) None None _ _ eq_refl)
                           _ eq_refl) _ eq_refl)
             WGS84 eq_refl eq_refl eq_refl).
Defined.

End VectorCoverage.
